(** * Attendance sessions, attendance records and their statistics

    A shallow embedding of the two Mongoose models of the repository:
    the attendance record (schema indexes, haversine distance, geofence
    test, student summary pipeline) and the attendance session (schema,
    pre-save hook, lifecycle methods, statistics).

    Conventions.
    - A JavaScript [Date] is its [getTime()] value, an integer number of
      milliseconds, in [Z].  [new Date()] is the parameter [now].
    - An [ObjectId] is its hexadecimal string.
    - Counters are integers in [Z]; a percentage is an IEEE binary64
      number, as every JavaScript [Number] is, and is computed with
      primitive floats.
    - The haversine distance calls [Math.sin], [Math.cos] and
      [Math.atan2], whose rounding ECMAScript leaves to the engine, so
      coordinates and distances are real numbers.
    - A call that can raise returns an [Outcome]. *)

From Stdlib Require Import Floats.PrimFloat Numbers.Cyclic.Int63.Uint63.
From Stdlib Require Import ZArith List Bool String Ascii Lia.
From Stdlib Require Import Reals Lra.
From Stdlib Require Import Permutation.
Import ListNotations.

Open Scope string_scope.

Definition ObjectId := string.

Inductive JsError := TypeError | MongoServerError.

Inductive Outcome (A : Type) :=
| Returns (a : A)
| Throws (e : JsError).
Arguments Returns {A} a.
Arguments Throws {A} e.

(** The binary64 number of an integer counter (exact below 2^53, as
    the size of a collection is). *)
Definition Number_of_Z (z : Z) : float :=
  if (z <? 0)%Z
  then PrimFloat.opp (PrimFloat.of_uint63 (Uint63.of_Z (- z)))
  else PrimFloat.of_uint63 (Uint63.of_Z z).

(** [Math.atan2 y x] on real arguments. *)
Definition atan2 (y x : R) : R :=
  if Rlt_dec 0 x then atan (y / x)
  else if Rlt_dec x 0
       then (if Rle_dec 0 y then atan (y / x) + PI else atan (y / x) - PI)
       else if Rlt_dec 0 y then PI / 2
            else if Rlt_dec y 0 then - (PI / 2)
                 else 0.

(** ** The attendance record (src/attendence.js) *)

Module Attendance.

(** [status]: enum ['present', 'absent', 'late', 'excused']. *)
Inductive Status := present | absent | late | excused.

Definition Status_eqb (a b : Status) : bool :=
  match a, b with
  | present, present | absent, absent | late, late | excused, excused => true
  | _, _ => false
  end.

(** [location.latitude] and [location.longitude] are Numbers that the
    schema requires only for present and late records: [None] is the
    unset ([undefined] or [null]) field. *)
Record Location := {
  latitude : option R;
  longitude : option R
}.

(** The fields that the indexes, the methods and the statics read. *)
Record t := {
  _id : ObjectId;
  classroom : ObjectId;
  student : ObjectId;
  teacher : ObjectId;
  session : ObjectId;
  status : Status;
  markedAt : Z;
  location : Location
}.

(** *** Indexes and inserts *)

(** [schema.index(fields, options)]: the fields with their directions,
    and the [unique] option. *)
Record IndexSpec := {
  ix_fields : list (string * Z);
  ix_unique : bool
}.

(** [attendanceSchema.index(fields)], called without options: the
    index is not unique. *)
Definition index (fields : list (string * Z)) : IndexSpec :=
  {| ix_fields := fields; ix_unique := false |}.

(** The eight indexes the schema declares, in source order. *)
Definition indexes : list IndexSpec :=
  [ index [("classroom", 1); ("student", 1)];
    index [("session", 1)];
    index [("markedAt", 1)];
    index [("status", 1)];
    index [("location.latitude", 1); ("location.longitude", 1)];
    index [("classroom", 1); ("markedAt", -1)];
    index [("student", 1); ("markedAt", -1)];
    index [("teacher", 1); ("markedAt", -1)] ]%Z%list.

(** The index on [_id] that every MongoDB collection has. *)
Definition id_index : IndexSpec :=
  {| ix_fields := [("_id", 1%Z)]; ix_unique := true |}.

Inductive Value :=
| VId (s : ObjectId)
| VDate (z : Z)
| VStatus (s : Status)
| VNum (r : R)
| VMissing.

Definition Value_eqb (a b : Value) : bool :=
  match a, b with
  | VId x, VId y => String.eqb x y
  | VDate x, VDate y => Z.eqb x y
  | VStatus x, VStatus y => Status_eqb x y
  | VNum x, VNum y => if Req_dec_T x y then true else false
  | VMissing, VMissing => true
  | _, _ => false
  end.

Definition VNum_opt (o : option R) : Value :=
  match o with Some r => VNum r | None => VMissing end.

(** The value of a document at an indexed path. *)
Definition get (path : string) (d : t) : Value :=
  if String.eqb path "_id" then VId (_id d)
  else if String.eqb path "classroom" then VId (classroom d)
  else if String.eqb path "student" then VId (student d)
  else if String.eqb path "teacher" then VId (teacher d)
  else if String.eqb path "session" then VId (session d)
  else if String.eqb path "status" then VStatus (status d)
  else if String.eqb path "markedAt" then VDate (markedAt d)
  else if String.eqb path "location.latitude" then VNum_opt (latitude (location d))
  else if String.eqb path "location.longitude" then VNum_opt (longitude (location d))
  else VMissing.

Definition same_key (ix : IndexSpec) (a b : t) : bool :=
  forallb (fun f => Value_eqb (get (fst f) a) (get (fst f) b)) (ix_fields ix).

(** Only a unique index refuses a document whose key is already there. *)
Definition violates (coll : list t) (d : t) (ix : IndexSpec) : bool :=
  ix_unique ix && existsb (same_key ix d) coll.

Inductive WriteResult :=
| Inserted (coll : list t)
| DuplicateKey (fields : list (string * Z)).

(** Inserting one document into the collection. *)
Definition insert (coll : list t) (d : t) : WriteResult :=
  match find (violates coll d) (id_index :: indexes) with
  | Some ix => DuplicateKey (ix_fields ix)
  | None => Inserted (coll ++ [d])
  end.

(** The records of one student in one session. *)
Definition records_of (sessionId studentId : ObjectId) (coll : list t) : list t :=
  filter (fun d => String.eqb (session d) sessionId && String.eqb (student d) studentId) coll.

(** *** Geofence *)

Definition calculateDistance (lat1 lon1 lat2 lon2 : R) : R :=
  let R0 := 6371000%R in
  let phi1 := (lat1 * PI / 180)%R in
  let phi2 := (lat2 * PI / 180)%R in
  let dphi := ((lat2 - lat1) * PI / 180)%R in
  let dlam := ((lon2 - lon1) * PI / 180)%R in
  let a := (sin (dphi / 2) * sin (dphi / 2) +
            cos phi1 * cos phi2 *
            sin (dlam / 2) * sin (dlam / 2))%R in
  let c := (2 * atan2 (sqrt a) (sqrt (1 - a)))%R in
  (R0 * c)%R.

(** [{ latitude, longitude }] of the classroom. *)
Record Coordinates := {
  c_latitude : R;
  c_longitude : R
}.

(** [!x] for a Number: zero is falsy. *)
Definition falsy (x : R) : bool := if Req_dec_T x 0 then true else false.

(** [classroomLocation] is [None] when the caller passes [undefined]:
    reading a property of it raises a TypeError. *)
Definition isWithinGeofence (d : t) (classroomLocation : option Coordinates)
    (radius : R) : Outcome bool :=
  match latitude (location d), longitude (location d) with
  | Some lat, Some lon =>
      if falsy lat || falsy lon then Returns false
      else match classroomLocation with
           | None => Throws TypeError
           | Some c =>
               let distance :=
                 calculateDistance lat lon (c_latitude c) (c_longitude c) in
               Returns (if Rle_dec distance radius then true else false)
           end
  | _, _ => Returns false
  end.

Local Open Scope Z_scope.

(** *** Aggregation stages *)

(** A row of [{ $group: { _id: '$status', count: { $sum: 1 } } }]. *)
Record GroupRow := {
  g_id : Status;
  g_count : Z
}.

(** One more document of status [st]: its group's counter goes up, or
    a new group starts at 1. *)
Fixpoint bump (st : Status) (rows : list GroupRow) : list GroupRow :=
  match rows with
  | [] => [{| g_id := st; g_count := 1 |}]
  | r :: rest =>
      if Status_eqb (g_id r) st
      then {| g_id := st; g_count := g_count r + 1 |} :: rest
      else r :: bump st rest
  end.

(** The groups in order of first occurrence (MongoDB fixes no order;
    each status has at most one row in any order). *)
Definition group_by_status (docs : list t) : list GroupRow :=
  fold_left (fun rows d => bump (status d) rows) docs [].

(** [{ $sum: '$count' }], the sum of all counters. *)
Definition total_of (rows : list GroupRow) : Z :=
  fold_left (fun acc r => acc + g_count r) rows 0.

(** [{ $sum: { $cond: [{ $eq: ['$_id', st] }, '$count', 0] } }]. *)
Definition sum_cond (st : Status) (rows : list GroupRow) : Z :=
  fold_left (fun acc r => acc + (if Status_eqb (g_id r) st then g_count r else 0))
            rows 0.

(** A row of the second [$group], whose [_id] is [null]. *)
Record Totals := {
  t_total : Z;
  t_present : Z;
  t_absent : Z;
  t_late : Z;
  t_excused : Z
}.

(** Grouping on a constant [_id]: one row when there is input, no row
    when there is none. *)
Definition group_all (rows : list GroupRow) : list Totals :=
  match rows with
  | [] => []
  | _ :: _ =>
      [{| t_total := total_of rows;
          t_present := sum_cond present rows;
          t_absent := sum_cond absent rows;
          t_late := sum_cond late rows;
          t_excused := sum_cond excused rows |}]
  end.

(** [$divide]: the server raises an error on a zero divisor. *)
Definition divide (a b : Z) : Outcome float :=
  if b =? 0 then Throws MongoServerError
  else Returns (PrimFloat.div (Number_of_Z a) (Number_of_Z b)).

(** [$multiply] of a double by 100. *)
Definition multiply100 (x : float) : float := PrimFloat.mul x 100%float.

(** A row of the result: [total], [present], [absent], [late],
    [excused] and the added field. *)
Record SummaryRow := {
  total : Z;
  present_ : Z;
  absent_ : Z;
  late_ : Z;
  excused_ : Z;
  attendancePercentage : float
}.

(** [{ $addFields: { attendancePercentage: ... } }] on one row. *)
Definition addFields1 (r : Totals) : Outcome SummaryRow :=
  match divide (t_present r) (t_total r) with
  | Throws e => Throws e
  | Returns q =>
      Returns {| total := t_total r; present_ := t_present r;
                 absent_ := t_absent r; late_ := t_late r;
                 excused_ := t_excused r;
                 attendancePercentage := multiply100 q |}
  end.

Fixpoint addFields (rows : list Totals) : Outcome (list SummaryRow) :=
  match rows with
  | [] => Returns []
  | r :: rest =>
      match addFields1 r with
      | Throws e => Throws e
      | Returns r' =>
          match addFields rest with
          | Throws e => Throws e
          | Returns rest' => Returns (r' :: rest')
          end
      end
  end.

(** The [$match] stage of [getStudentSummary]. *)
Record MatchStage := {
  m_student : ObjectId;
  m_classroom : option ObjectId;
  m_markedAt : option (Z * Z)
}.

Definition matches (m : MatchStage) (d : t) : bool :=
  String.eqb (student d) (m_student m)
  && match m_classroom m with
     | Some c => String.eqb (classroom d) c
     | None => true
     end
  && match m_markedAt m with
     | Some (gte, lte) => (gte <=? markedAt d) && (markedAt d <=? lte)
     | None => true
     end.

(** The [matchStage] object that [getStudentSummary] builds: the
    classroom is added when [classroomId] is truthy, the date range
    when both dates are; a falsy argument is [None]. *)
Definition matchStage (studentId : ObjectId) (classroomId : option ObjectId)
    (startDate endDate : option Z) : MatchStage :=
  {| m_student := studentId;
     m_classroom := classroomId;
     m_markedAt := match startDate, endDate with
                   | Some s, Some e => Some (s, e)
                   | _, _ => None
                   end |}.

(** [getStudentSummary(studentId, classroomId, startDate, endDate)] over
    the collection [coll].  Ids are taken to be well-formed, so the
    casts to [ObjectId] return. *)
Definition getStudentSummary (coll : list t) (studentId : ObjectId)
    (classroomId : option ObjectId) (startDate endDate : option Z)
  : Outcome (list SummaryRow) :=
  let stage := matchStage studentId classroomId startDate endDate in
  addFields (group_all (group_by_status (filter (matches stage) coll))).

(** The number of documents of one status, for stating what the
    pipelines compute. *)
Definition count_status (st : Status) (docs : list t) : Z :=
  Z.of_nat (List.length (filter (fun d => Status_eqb (status d) st) docs)).

(** The row that the summary pipeline yields for matched documents. *)
Definition summary_of (matched : list t) : SummaryRow :=
  {| total := Z.of_nat (List.length matched);
     present_ := count_status present matched;
     absent_ := count_status absent matched;
     late_ := count_status late matched;
     excused_ := count_status excused matched;
     attendancePercentage :=
       multiply100
         (PrimFloat.div (Number_of_Z (count_status present matched))
                        (Number_of_Z (Z.of_nat (List.length matched)))) |}.

(** *** The classroom summary *)

(** A row of [{ $group: { _id: '$status', count: { $sum: 1 },
    students: { $addToSet: '$student' } } }]. *)
Record StudentsRow := {
  s_id : Status;
  s_count : Z;
  s_students : list ObjectId
}.

(** [$addToSet]: the value joins the set unless it is in it (the
    order of the set is not fixed by MongoDB). *)
Definition addToSet (x : ObjectId) (l : list ObjectId) : list ObjectId :=
  if existsb (String.eqb x) l then l else (l ++ [x])%list.

(** One more document of status [st] and student [who]. *)
Fixpoint bump_students (st : Status) (who : ObjectId) (rows : list StudentsRow)
  : list StudentsRow :=
  match rows with
  | [] => [{| s_id := st; s_count := 1; s_students := [who] |}]
  | r :: rest =>
      if Status_eqb (s_id r) st
      then {| s_id := st; s_count := s_count r + 1;
              s_students := addToSet who (s_students r) |} :: rest
      else r :: bump_students st who rest
  end.

Definition group_by_status_students (docs : list t) : list StudentsRow :=
  fold_left (fun rows d => bump_students (status d) (student d) rows) docs [].

(** [{ $sum: { $cond: [{ $eq: ['$_id', st] }, '$count', 0] } }]. *)
Definition sum_count_if (st : Status) (rows : list StudentsRow) : Z :=
  fold_left (fun acc r => acc + (if Status_eqb (s_id r) st then s_count r else 0))
            rows 0.

(** [{ $sum: { $cond: [{ $eq: ['$_id', st] }, { $size: '$students' }, 0] } }]. *)
Definition sum_size_if (st : Status) (rows : list StudentsRow) : Z :=
  fold_left (fun acc r => acc + (if Status_eqb (s_id r) st
                                 then Z.of_nat (List.length (s_students r))
                                 else 0))
            rows 0.

(** A row of the result: [total], [present], [absent], [late],
    [excused] and [uniqueStudents]. *)
Record ClassroomRow := {
  cs_total : Z;
  cs_present : Z;
  cs_absent : Z;
  cs_late : Z;
  cs_excused : Z;
  cs_uniqueStudents : Z
}.

Definition group_all_students (rows : list StudentsRow) : list ClassroomRow :=
  match rows with
  | [] => []
  | _ :: _ =>
      [{| cs_total := fold_left (fun acc r => acc + s_count r) rows 0;
          cs_present := sum_count_if present rows;
          cs_absent := sum_count_if absent rows;
          cs_late := sum_count_if late rows;
          cs_excused := sum_count_if excused rows;
          cs_uniqueStudents := sum_size_if present rows |}]
  end.

(** The [$match] stage: the classroom, and the session when
    [sessionId] is truthy. *)
Definition matches_classroom (classroomId : ObjectId)
    (sessionId : option ObjectId) (d : t) : bool :=
  String.eqb (classroom d) classroomId
  && match sessionId with
     | Some s => String.eqb (session d) s
     | None => true
     end.

(** [getClassroomSummary(classroomId, sessionId)] over the collection
    [coll]. *)
Definition getClassroomSummary (coll : list t) (classroomId : ObjectId)
    (sessionId : option ObjectId) : list ClassroomRow :=
  group_all_students
    (group_by_status_students (filter (matches_classroom classroomId sessionId) coll)).

(** The students that have a record of status [st], each once. *)
Definition distinct_students (st : Status) (docs : list t) : list ObjectId :=
  nodup string_dec (map student (filter (fun d => Status_eqb (status d) st) docs)).

(** The row that the classroom pipeline yields for matched documents. *)
Definition classroom_summary_of (matched : list t) : ClassroomRow :=
  {| cs_total := Z.of_nat (List.length matched);
     cs_present := count_status present matched;
     cs_absent := count_status absent matched;
     cs_late := count_status late matched;
     cs_excused := count_status excused matched;
     cs_uniqueStudents := Z.of_nat (List.length (distinct_students present matched)) |}.

(** The rows of one status, the students of the records of one
    status, and what ties them while the groups are built. *)
Definition rows_of (st : Status) (rows : list StudentsRow) : list StudentsRow :=
  filter (fun r => Status_eqb (s_id r) st) rows.

Definition students_of (st : Status) (docs : list t) : list ObjectId :=
  map student (filter (fun d => Status_eqb (status d) st) docs).

Definition tracked (st : Status) (docs : list t) (rows : list StudentsRow) : Prop :=
  (rows_of st rows = [] /\ students_of st docs = [])
  \/ exists r, rows_of st rows = [r] /\ NoDup (s_students r)
               /\ forall s, In s (s_students r) <-> In s (students_of st docs).

End Attendance.

(** ** The attendance session (src/unnamed/part_000) *)

Module Session.

Local Open Scope Z_scope.

(** [status]: enum ['scheduled', 'active', 'completed', 'cancelled']. *)
Inductive Status := scheduled | active | completed | cancelled.

Definition Status_eqb (a b : Status) : bool :=
  match a, b with
  | scheduled, scheduled | active, active
  | completed, completed | cancelled, cancelled => true
  | _, _ => false
  end.

Record Window := {
  w_start : Z;
  w_end : Z
}.

(** [attendanceWindowMinutes] is a whole number of minutes. *)
Record Settings := {
  allowLateAttendance : bool;
  requireLocation : bool;
  requireBiometric : bool;
  autoMarkAbsent : bool;
  attendanceWindowMinutes : Z
}.

Record Statistics := {
  totalStudents : Z;
  presentCount : Z;
  absentCount : Z;
  lateCount : Z;
  excusedCount : Z;
  attendancePercentage : float
}.

(** The data of a session that the hook and the methods read or write.
    [attendance] is the schema's array of ObjectIds (ref 'Attendance'). *)
Record Fields := {
  _id : ObjectId;
  startTime : Z;
  endTime : Z;
  attendanceWindow : Window;
  status : Status;
  settings : Settings;
  attendance : list ObjectId;
  statistics : Statistics
}.

(** A Mongoose document: the data, whether it was never saved, and the
    paths that were set since it was loaded or last saved. *)
Record t := {
  fields : Fields;
  isNew : bool;
  modified : list string
}.

(** *** Change tracking *)

(** [p] is a proper ancestor of the dotted path [q]. *)
Definition ancestor (p q : string) : bool := String.prefix (p ++ ".") q.

(** [doc.isModified(path)]: the path was set, or a path below it was,
    or a path above it was. *)
Definition isModified (path : string) (d : t) : bool :=
  existsb (fun m => String.eqb m path || ancestor path m || ancestor m path)
          (modified d).

(** An assignment to the schema path [path]: the document takes the
    new data, and the path counts as modified when the document is
    new, when the path was modified already, or when the value
    differs from the one it replaces. *)
Definition assign (path : string) (changed : bool) (f : Fields) (d : t) : t :=
  {| fields := f;
     isNew := isNew d;
     modified :=
       if existsb (String.eqb path) (modified d) then modified d
       else if isNew d || changed then path :: modified d
            else modified d |}.

Definition set_status (v : Status) (d : t) : t :=
  let o := fields d in
  assign "status" (negb (Status_eqb v (status o)))
    {| _id := _id o; startTime := startTime o; endTime := endTime o;
       attendanceWindow := attendanceWindow o; status := v;
       settings := settings o; attendance := attendance o;
       statistics := statistics o |} d.

Definition set_startTime (v : Z) (d : t) : t :=
  let o := fields d in
  assign "startTime" (negb (v =? startTime o))
    {| _id := _id o; startTime := v; endTime := endTime o;
       attendanceWindow := attendanceWindow o; status := status o;
       settings := settings o; attendance := attendance o;
       statistics := statistics o |} d.

Definition set_endTime (v : Z) (d : t) : t :=
  let o := fields d in
  assign "endTime" (negb (v =? endTime o))
    {| _id := _id o; startTime := startTime o; endTime := v;
       attendanceWindow := attendanceWindow o; status := status o;
       settings := settings o; attendance := attendance o;
       statistics := statistics o |} d.

Definition set_attendanceWindow_start (v : Z) (d : t) : t :=
  let o := fields d in
  assign "attendanceWindow.start" (negb (v =? w_start (attendanceWindow o)))
    {| _id := _id o; startTime := startTime o; endTime := endTime o;
       attendanceWindow := {| w_start := v; w_end := w_end (attendanceWindow o) |};
       status := status o;
       settings := settings o; attendance := attendance o;
       statistics := statistics o |} d.

Definition set_attendanceWindow_end (v : Z) (d : t) : t :=
  let o := fields d in
  assign "attendanceWindow.end" (negb (v =? w_end (attendanceWindow o)))
    {| _id := _id o; startTime := startTime o; endTime := endTime o;
       attendanceWindow := {| w_start := w_start (attendanceWindow o); w_end := v |};
       status := status o;
       settings := settings o; attendance := attendance o;
       statistics := statistics o |} d.

(** [doc.settings.attendanceWindowMinutes = v], the assignment a caller
    makes to change the configured window length. *)
Definition set_attendanceWindowMinutes (v : Z) (d : t) : t :=
  let o := fields d in
  let g := settings o in
  assign "settings.attendanceWindowMinutes"
    (negb (v =? attendanceWindowMinutes g))
    {| _id := _id o; startTime := startTime o; endTime := endTime o;
       attendanceWindow := attendanceWindow o; status := status o;
       settings :=
         {| allowLateAttendance := allowLateAttendance g;
            requireLocation := requireLocation g;
            requireBiometric := requireBiometric g;
            autoMarkAbsent := autoMarkAbsent g;
            attendanceWindowMinutes := v |};
       attendance := attendance o;
       statistics := statistics o |} d.

(** An assignment to one path under [statistics]. *)
Definition set_statistics (path : string) (changed : bool) (v : Statistics)
    (d : t) : t :=
  let o := fields d in
  assign path changed
    {| _id := _id o; startTime := startTime o; endTime := endTime o;
       attendanceWindow := attendanceWindow o; status := status o;
       settings := settings o; attendance := attendance o;
       statistics := v |} d.

(** *** Saving *)

(** The end of the window that starts at [start]. *)
Definition window_end (start : Z) (d : t) : Z :=
  start + attendanceWindowMinutes (settings (fields d)) * 60 * 1000.

(** The pre-save middleware. *)
Definition pre_save (d : t) : t :=
  if isNew d || isModified "startTime" d || isModified "attendanceWindowMinutes" d
  then
    let d1 := set_attendanceWindow_start (startTime (fields d)) d in
    set_attendanceWindow_end (window_end (startTime (fields d1)) d1) d1
  else d.

(** [doc.save()]: the middleware runs, the document is written, and it
    is neither new nor modified afterwards.  The schema's validators
    are not part of the model: documents are taken to satisfy them. *)
Definition save (d : t) : t :=
  {| fields := fields (pre_save d); isNew := false; modified := [] |}.

(** The window that the start time and the configured length determine. *)
Definition derived_window (d : t) : Window :=
  {| w_start := startTime (fields d);
     w_end := startTime (fields d)
              + attendanceWindowMinutes (settings (fields d)) * 60 * 1000 |}.

(** *** Queries *)

Definition isAttendanceWindowOpen (d : t) (now : Z) : bool :=
  Status_eqb (status (fields d)) active
  && (w_start (attendanceWindow (fields d)) <=? now)
  && (now <=? w_end (attendanceWindow (fields d))).

(** [isActive()]: the session runs at [now]. *)
Definition isActive (d : t) (now : Z) : bool :=
  Status_eqb (status (fields d)) active
  && (startTime (fields d) <=? now)
  && (now <=? endTime (fields d)).

(** The object [canMarkAttendance] returns; [reason] is absent from
    [{ canMark: true }]. *)
Record MarkDecision := {
  canMark : bool;
  reason : option string
}.

(** [this.attendance.includes(studentId)]. *)
Definition includes (ids : list ObjectId) (x : ObjectId) : bool :=
  existsb (String.eqb x) ids.

Definition canMarkAttendance (d : t) (studentId : ObjectId) (now : Z)
  : MarkDecision :=
  if negb (isAttendanceWindowOpen d now)
  then {| canMark := false; reason := Some "Attendance window is closed" |}
  else if includes (attendance (fields d)) studentId
       then {| canMark := false; reason := Some "Attendance already marked" |}
       else {| canMark := true; reason := None |}.

(** *** Lifecycle *)

Definition startSession (d : t) (now : Z) : t :=
  let d1 := set_status active d in
  let d2 := set_startTime now d1 in
  let d3 := set_attendanceWindow_start (startTime (fields d2)) d2 in
  let d4 := set_attendanceWindow_end (window_end (startTime (fields d3)) d3) d3 in
  save d4.

Definition endSession (d : t) (now : Z) : t :=
  save (set_endTime now (set_status completed d)).

Definition cancelSession (d : t) : t :=
  save (set_status cancelled d).

(** *** Statistics *)

Definition set_totalStudents (v : Z) (d : t) : t :=
  let o := statistics (fields d) in
  set_statistics "statistics.totalStudents" (negb (v =? totalStudents o))
    {| totalStudents := v;
       presentCount := presentCount o;
       absentCount := absentCount o;
       lateCount := lateCount o;
       excusedCount := excusedCount o;
       attendancePercentage := attendancePercentage o |} d.

Definition set_presentCount (v : Z) (d : t) : t :=
  let o := statistics (fields d) in
  set_statistics "statistics.presentCount" (negb (v =? presentCount o))
    {| totalStudents := totalStudents o;
       presentCount := v;
       absentCount := absentCount o;
       lateCount := lateCount o;
       excusedCount := excusedCount o;
       attendancePercentage := attendancePercentage o |} d.

Definition set_absentCount (v : Z) (d : t) : t :=
  let o := statistics (fields d) in
  set_statistics "statistics.absentCount" (negb (v =? absentCount o))
    {| totalStudents := totalStudents o;
       presentCount := presentCount o;
       absentCount := v;
       lateCount := lateCount o;
       excusedCount := excusedCount o;
       attendancePercentage := attendancePercentage o |} d.

Definition set_lateCount (v : Z) (d : t) : t :=
  let o := statistics (fields d) in
  set_statistics "statistics.lateCount" (negb (v =? lateCount o))
    {| totalStudents := totalStudents o;
       presentCount := presentCount o;
       absentCount := absentCount o;
       lateCount := v;
       excusedCount := excusedCount o;
       attendancePercentage := attendancePercentage o |} d.

Definition set_excusedCount (v : Z) (d : t) : t :=
  let o := statistics (fields d) in
  set_statistics "statistics.excusedCount" (negb (v =? excusedCount o))
    {| totalStudents := totalStudents o;
       presentCount := presentCount o;
       absentCount := absentCount o;
       lateCount := lateCount o;
       excusedCount := v;
       attendancePercentage := attendancePercentage o |} d.

Definition set_attendancePercentage (v : float) (d : t) : t :=
  let o := statistics (fields d) in
  set_statistics "statistics.attendancePercentage" (negb (PrimFloat.eqb v (attendancePercentage o)))
    {| totalStudents := totalStudents o;
       presentCount := presentCount o;
       absentCount := absentCount o;
       lateCount := lateCount o;
       excusedCount := excusedCount o;
       attendancePercentage := v |} d.

(** [stats.find(s => s._id === st)?.count || 0]: the count of the row
    found, and 0 when there is none ([c || 0] is [c] for a counter). *)
Definition count_of (st : Attendance.Status) (stats : list Attendance.GroupRow) : Z :=
  match find (fun s => Attendance.Status_eqb (Attendance.g_id s) st) stats with
  | Some s => Attendance.g_count s
  | None => 0
  end.

(** [(presentCount / totalStudents) * 100] on Numbers. *)
Definition percentage (presentCount totalStudents : Z) : float :=
  PrimFloat.mul
    (PrimFloat.div (Number_of_Z presentCount) (Number_of_Z totalStudents))
    100%float.

(** [updateStatistics()], with [coll] the Attendance collection that the
    aggregation reads. *)
Definition updateStatistics (d : t) (coll : list Attendance.t) : t :=
  let stats :=
    Attendance.group_by_status
      (filter (fun r => String.eqb (Attendance.session r) (_id (fields d))) coll) in
  let d1 :=
    set_totalStudents
      (fold_left (fun sum stat => sum + Attendance.g_count stat) stats 0) d in
  let d2 := set_presentCount (count_of Attendance.present stats) d1 in
  let d3 := set_absentCount (count_of Attendance.absent stats) d2 in
  let d4 := set_lateCount (count_of Attendance.late stats) d3 in
  let d5 := set_excusedCount (count_of Attendance.excused stats) d4 in
  let st := statistics (fields d5) in
  let d6 :=
    if 0 <? totalStudents st
    then set_attendancePercentage
           (percentage (presentCount st) (totalStudents st)) d5
    else d5 in
  save d6.

(** *** Queries over the stored sessions *)

(** [getActiveSessions()] at time [now], over the collection [coll]:
    [find({ status: 'active', startTime: { $lte: now }, endTime: { $gte: now } })]. *)
Definition getActiveSessions (coll : list t) (now : Z) : list t :=
  filter (fun d => Status_eqb (status (fields d)) active
                   && (startTime (fields d) <=? now)
                   && (endTime (fields d) >=? now))
         coll.

(** *** Sequences of calls *)

(** A call of one of the methods that save the session. *)
Inductive Call :=
| CallStart (now : Z)
| CallEnd (now : Z)
| CallCancel
| CallUpdateStatistics (coll : list Attendance.t).

Definition call (d : t) (c : Call) : t :=
  match c with
  | CallStart now => startSession d now
  | CallEnd now => endSession d now
  | CallCancel => cancelSession d
  | CallUpdateStatistics coll => updateStatistics d coll
  end.

Definition calls (d : t) (cs : list Call) : t := fold_left call cs d.

(** The middleware has nothing to do on save: the document is not
    new and neither path it asks about counts as modified. *)
Definition quiet (d : t) : Prop :=
  isNew d = false /\
  isModified "startTime" d = false /\
  isModified "attendanceWindowMinutes" d = false.

(** Two states of the data that differ at most in [statistics]. *)
Definition same_but_statistics (a b : Fields) : Prop :=
  _id a = _id b /\ startTime a = startTime b /\ endTime a = endTime b /\
  attendanceWindow a = attendanceWindow b /\ status a = status b /\
  settings a = settings b /\ attendance a = attendance b.

(** A call other than [startSession]. *)
Definition not_start (c : Call) : bool :=
  match c with CallStart _ => false | _ => true end.

(** The records of the collection that belong to the session. *)
Definition own_records (d : t) (coll : list Attendance.t) : list Attendance.t :=
  filter (fun r => String.eqb (Attendance.session r) (_id (fields d))) coll.

End Session.

(** ** The authorisation middleware (src/auth.js) *)

Module Auth.

Local Open Scope Z_scope.

(** The fields of a user document that the middleware reads (the User
    model is not part of these sources). *)
Record User := {
  u_id : ObjectId;
  role : string;
  isActive : bool;
  isLocked : bool
}.

(** The fields of a classroom document that the middleware reads. *)
Record Classroom := {
  teacher : ObjectId;
  students : list ObjectId
}.

(** The JSON body of a refusal; a key that a middleware does not set
    is [None] (or the empty list). *)
Record Body := {
  message : string;
  code : string;
  required : list string;
  current : option string;
  retryAfter : option Z
}.

Definition body (message code : string) : Body :=
  {| message := message; code := code; required := []; current := None;
     retryAfter := None |}.

(** What a middleware does with a request: it calls [next()], having
    attached [a] to the request, or it answers with a status and a
    body. *)
Inductive Reply (A : Type) :=
| Next (a : A)
| Respond (status : Z) (b : Body).
Arguments Next {A} a.
Arguments Respond {A} status b.

(** *** Roles *)

(** [requireRole(...roles)] applied to a request whose [req.user] is
    [user]. *)
Definition requireRole (roles : list string) (user : option User) : Reply unit :=
  match user with
  | None => Respond 401 (body "Authentication required" "AUTH_REQUIRED")
  | Some u =>
      if negb (existsb (String.eqb (role u)) roles)
      then Respond 403
             {| message := "Insufficient permissions";
                code := "INSUFFICIENT_PERMISSIONS";
                required := roles;
                current := Some (role u);
                retryAfter := None |}
      else Next tt
  end.

Definition requireAdmin := requireRole ["admin"].
Definition requireTeacherOrAdmin := requireRole ["teacher"; "admin"].
Definition requireAnyRole := requireRole ["student"; "teacher"; "admin"].

(** *** Access to a classroom *)

(** What a query that can fail gives: a document, [null], or an error
    with its [name]. *)
Inductive Found (A : Type) :=
| Doc (a : A)
| Null
| Raised (name : string).
Arguments Doc {A} a.
Arguments Null {A}.
Arguments Raised {A} name.

(** [requireClassroomAccess], with [findById] standing for
    [Classroom.findById]; reading [req.user.role] of a request without
    user raises a TypeError, which the [catch] answers. *)
Definition requireClassroomAccess (findById : ObjectId -> Found Classroom)
    (user : option User) (classroomId : ObjectId) : Reply Classroom :=
  let failed :=
    Respond 500 (body "Error checking classroom access" "CLASSROOM_ACCESS_ERROR") in
  match findById classroomId with
  | Raised _ => failed
  | Null => Respond 404 (body "Classroom not found" "CLASSROOM_NOT_FOUND")
  | Doc classroom =>
      match user with
      | None => failed
      | Some u =>
          if String.eqb (role u) "admin" then Next classroom
          else if String.eqb (role u) "teacher"
                  && String.eqb (teacher classroom) (u_id u)
          then Next classroom
          else if String.eqb (role u) "student"
                  && existsb (String.eqb (u_id u)) (students classroom)
          then Next classroom
          else Respond 403
                 (body "Access denied to this classroom" "CLASSROOM_ACCESS_DENIED")
      end
  end.

(** *** Rate limiting *)

(** The [attempts] map of one limiter: the times stored per user id. *)
Definition Attempts := string -> option (list Z).

Definition no_attempts : Attempts := fun _ => None.

(** [attempts.set(userId, times)]. *)
Definition set (userId : string) (times : list Z) (attempts : Attempts)
  : Attempts :=
  fun u => if String.eqb u userId then Some times else attempts u.

(** [attempts.get(userId) || []]. *)
Definition get_or_empty (attempts : Attempts) (userId : string) : list Z :=
  match attempts userId with
  | Some times => times
  | None => []
  end.

(** [Math.ceil(x / 1000)] for a whole number of milliseconds. *)
Definition ceil_seconds (x : Z) : Z := - ((- x) / 1000).

(** The times that are less than [windowMs] before [now]. *)
Definition valid_at (windowMs now : Z) (times : list Z) : list Z :=
  filter (fun time => now - time <? windowMs) times.

(** One request through the middleware that
    [rateLimitByUser(maxAttempts, windowMs)] returns: [userId] is
    [req.user?._id?.toString()], [None] when there is no user, and
    [now] is [Date.now()].  The result is the map afterwards and the
    reply. *)
Definition rateLimitByUser (maxAttempts windowMs : Z) (attempts : Attempts)
    (userId : option string) (now : Z) : Attempts * Reply unit :=
  match userId with
  | None => (attempts, Next tt)
  | Some u =>
      if String.eqb u "" then (attempts, Next tt)
      else
        let userAttempts := get_or_empty attempts u in
        let validAttempts := valid_at windowMs now userAttempts in
        if Z.of_nat (List.length validAttempts) >=? maxAttempts
        then (attempts,
              Respond 429
                {| message := "Too many attempts. Please try again later.";
                   code := "RATE_LIMIT_EXCEEDED";
                   required := [];
                   current := None;
                   retryAfter :=
                     match validAttempts with
                     | first :: _ => Some (ceil_seconds (first + windowMs - now))
                     | [] => None
                     end |})
        else (set u (validAttempts ++ [now]) attempts, Next tt)
  end.

(** A request as the limiter sees it, and a run of requests from a
    given map: the map afterwards and the accepted requests of users,
    each with its time, oldest first. *)
Definition Request := (option string * Z)%type.

Definition accepted (r : Reply unit) : bool :=
  match r with Next _ => true | Respond _ _ => false end.

Fixpoint run (maxAttempts windowMs : Z) (attempts : Attempts)
    (log : list (string * Z)) (reqs : list Request)
  : Attempts * list (string * Z) :=
  match reqs with
  | [] => (attempts, log)
  | (userId, now) :: rest =>
      let (attempts', reply) :=
        rateLimitByUser maxAttempts windowMs attempts userId now in
      let log' :=
        match userId with
        | Some u =>
            if accepted reply && negb (String.eqb u "")
            then (log ++ [(u, now)])%list else log
        | None => log
        end in
      run maxAttempts windowMs attempts' log' rest
  end.

(** The log of accepted requests after one more request. *)
Definition log_after (log : list (string * Z)) (userId : option string)
    (now : Z) (reply : Reply unit) : list (string * Z) :=
  match userId with
  | Some u =>
      if accepted reply && negb (String.eqb u "")
      then (log ++ [(u, now)])%list else log
  | None => log
  end.

(** The times at which the log has user [u]. *)
Definition times_of (u : string) (log : list (string * Z)) : list Z :=
  map snd (filter (fun e => String.eqb (fst e) u) log).

(** The clock does not run backwards over the requests. *)
Fixpoint clock_from (t : Z) (reqs : list Request) : Prop :=
  match reqs with
  | [] => True
  | (_, now) :: rest => t <= now /\ clock_from now rest
  end.

(** The stored times of every user number at most [bound]. *)
Definition bounded (bound : Z) (attempts : Attempts) : Prop :=
  forall u times, attempts u = Some times -> Z.of_nat (List.length times) <= bound.

(** From time [t] on, the stored times and the log agree on what is
    valid, for every user. *)
Definition in_step (windowMs t : Z) (attempts : Attempts)
    (log : list (string * Z)) : Prop :=
  forall u now, t <= now ->
    valid_at windowMs now (get_or_empty attempts u)
    = valid_at windowMs now (times_of u log).

(** *** Tokens *)

(** [header.split(' ')]. *)
Fixpoint split_space (s : string) : list string :=
  match s with
  | EmptyString => [EmptyString]
  | String c rest =>
      if Ascii.eqb c " "%char then EmptyString :: split_space rest
      else match split_space rest with
           | piece :: pieces => String c piece :: pieces
           | [] => [String c EmptyString]
           end
  end.

(** [authHeader && authHeader.split(' ')[1]], when it is truthy. *)
Definition token_of (authHeader : option string) : option string :=
  match authHeader with
  | None => None
  | Some h =>
      if String.eqb h "" then None
      else match nth_error (split_space h) 1 with
           | Some piece => if String.eqb piece "" then None else Some piece
           | None => None
           end
  end.

(** The string has no space in it. *)
Fixpoint no_space (s : string) : bool :=
  match s with
  | EmptyString => true
  | String c rest => negb (Ascii.eqb c " "%char) && no_space rest
  end.

(** The answer of the [catch] of [authenticateToken] to an error. *)
Definition auth_failure {A : Type} (name : string) : Reply A :=
  if String.eqb name "JsonWebTokenError"
  then Respond 401 (body "Invalid token" "INVALID_TOKEN")
  else if String.eqb name "TokenExpiredError"
       then Respond 401 (body "Token expired" "TOKEN_EXPIRED")
       else Respond 500 (body "Authentication error" "AUTH_ERROR").

(** What [jwt.verify] gives: the decoded payload, of which the
    middleware reads [userId], or the error raised, with its [name]. *)
Inductive Verified :=
| Decoded (userId : string)
| Rejected (name : string).

Section Collaborators.

(** [jwt.verify(token, process.env.JWT_SECRET)]. *)
Variable verify : string -> Verified.

(** [User.findById(id).select('-password')]. *)
Variable findById : string -> Found User.

Definition authenticateToken (authHeader : option string) : Reply User :=
  match token_of authHeader with
  | None => Respond 401 (body "Access token required" "NO_TOKEN")
  | Some token =>
      match verify token with
      | Rejected name => auth_failure name
      | Decoded userId =>
          match findById userId with
          | Raised name => auth_failure name
          | Null =>
              Respond 401 (body "Invalid token - user not found" "INVALID_TOKEN")
          | Doc user =>
              if negb (isActive user)
              then Respond 401 (body "Account is deactivated" "ACCOUNT_DEACTIVATED")
              else if isLocked user
                   then Respond 401
                          (body "Account is locked due to multiple failed login attempts"
                                "ACCOUNT_LOCKED")
                   else Next user
          end
      end
  end.

(** [optionalAuth]: it always calls [next()], with or without a user
    on the request. *)
Definition optionalAuth (authHeader : option string) : Reply (option User) :=
  match token_of authHeader with
  | None => Next None
  | Some token =>
      match verify token with
      | Decoded userId =>
          match findById userId with
          | Doc user =>
              if isActive user && negb (isLocked user)
              then Next (Some user) else Next None
          | _ => Next None
          end
      | Rejected _ => Next None
      end
  end.

End Collaborators.

End Auth.

(** ** Sample documents *)

Module Samples.

Import Session.

Definition t0 : Z := 1700000000000.

Definition no_statistics : Statistics :=
  {| totalStudents := 0; presentCount := 0; absentCount := 0;
     lateCount := 0; excusedCount := 0; attendancePercentage := 0%float |}.

(** A session that starts at [t0], lasts one hour and takes attendance
    for the default five minutes. *)
Definition session_fields (st : Status) (ids : list ObjectId)
    (stats : Statistics) : Fields :=
  {| _id := "5f1a00000000000000000001";
     startTime := t0;
     endTime := t0 + 3600000;
     attendanceWindow := {| w_start := t0; w_end := t0 + 300000 |};
     status := st;
     settings :=
       {| allowLateAttendance := false; requireLocation := true;
          requireBiometric := false; autoMarkAbsent := true;
          attendanceWindowMinutes := 5 |};
     attendance := ids;
     statistics := stats |}%Z.

(** The same session as loaded from the database. *)
Definition stored (st : Status) : Session.t :=
  {| fields := session_fields st [] no_statistics;
     isNew := false; modified := [] |}.

(** A stored session whose percentage was computed as 60 earlier. *)
Definition stored_with_60 : Session.t :=
  {| fields :=
       session_fields completed []
         {| totalStudents := 5; presentCount := 3; absentCount := 1;
            lateCount := 1; excusedCount := 0;
            attendancePercentage := 60%float |}%Z;
     isNew := false; modified := [] |}.

Definition student1 : ObjectId := "5f1b00000000000000000001".

(** A record of [student1] in the sample session. *)
Definition record (id : ObjectId) (st : Attendance.Status)
    (lat lon : option R) : Attendance.t :=
  {| Attendance._id := id;
     Attendance.classroom := "5f1c00000000000000000001";
     Attendance.student := student1;
     Attendance.teacher := "5f1d00000000000000000001";
     Attendance.session := "5f1a00000000000000000001";
     Attendance.status := st;
     Attendance.markedAt := (t0 + 60000)%Z;
     Attendance.location :=
       {| Attendance.latitude := lat; Attendance.longitude := lon |} |}.

Definition here : option R := Some 12%R.

(** Three present, one absent and one late record. *)
Definition five_records : list Attendance.t :=
  [ record "a1" Attendance.present here here;
    record "a2" Attendance.absent None None;
    record "a3" Attendance.present here here;
    record "a4" Attendance.late here here;
    record "a5" Attendance.present here here ].

(** Two records of [student1] in the sample session, with ids of
    their own. *)
Definition first_mark : Attendance.t :=
  record "5f1e00000000000000000001" Attendance.present here here.

Definition second_mark : Attendance.t :=
  record "5f1e00000000000000000002" Attendance.present here here.

(** A classroom on the equator at the prime meridian, and a record
    taken at its very centre. *)
Definition null_island : Attendance.Coordinates :=
  {| Attendance.c_latitude := 0; Attendance.c_longitude := 0 |}.

Definition at_null_island : Attendance.t :=
  record "5f1e00000000000000000003" Attendance.present (Some 0%R) (Some 0%R).

(** An absent record, which the schema lets go without coordinates. *)
Definition no_location : Attendance.t :=
  record "5f1e00000000000000000004" Attendance.absent None None.

(** Users of the three roles, a classroom of the teacher with the
    student enrolled, and the classroom collection that holds it. *)
Definition admin : Auth.User :=
  {| Auth.u_id := "5f1f00000000000000000001"; Auth.role := "admin";
     Auth.isActive := true; Auth.isLocked := false |}.

Definition teacher1 : Auth.User :=
  {| Auth.u_id := "5f1d00000000000000000001"; Auth.role := "teacher";
     Auth.isActive := true; Auth.isLocked := false |}.

Definition student1_user : Auth.User :=
  {| Auth.u_id := student1; Auth.role := "student";
     Auth.isActive := true; Auth.isLocked := false |}.

Definition classroom1 : Auth.Classroom :=
  {| Auth.teacher := "5f1d00000000000000000001";
     Auth.students := [student1] |}.

Definition classrooms (id : ObjectId) : Auth.Found Auth.Classroom :=
  if String.eqb id "5f1c00000000000000000001" then Auth.Doc classroom1
  else Auth.Null.

(** A verifier that knows one token, of the student, and the user
    collection that holds the three users. *)
Definition verify1 (token : string) : Auth.Verified :=
  if String.eqb token "t0k3n" then Auth.Decoded student1
  else Auth.Rejected "JsonWebTokenError".

Definition users (id : string) : Auth.Found Auth.User :=
  if String.eqb id student1 then Auth.Doc student1_user
  else if String.eqb id "5f1d00000000000000000001" then Auth.Doc teacher1
  else if String.eqb id "5f1f00000000000000000001" then Auth.Doc admin
  else Auth.Null.

(** Six requests of the student, one a minute, through a limiter of
    five attempts in fifteen minutes. *)
Definition six_requests : list Auth.Request :=
  [ (Some student1, t0); (Some student1, t0 + 60000);
    (Some student1, t0 + 120000); (Some student1, t0 + 180000);
    (Some student1, t0 + 240000); (Some student1, t0 + 300000) ]%Z.

End Samples.

(** * Properties *)

(** ** The session's lifecycle *)

Ltac split_hook :=
  unfold Session.pre_save;
  match goal with
  | |- context [if ?c then _ else _] => destruct c
  end.

Module SessionSetters.

Import Session.
Local Open Scope Z_scope.

(** What each assignment does to the data. *)
Lemma fields_set_status (v : Status) (d : t) :
  fields (set_status v d) =
  {| _id := _id (fields d); startTime := startTime (fields d);
     endTime := endTime (fields d);
     attendanceWindow := attendanceWindow (fields d); status := v;
     settings := settings (fields d); attendance := attendance (fields d);
     statistics := statistics (fields d) |}.
Proof. reflexivity. Qed.

Lemma fields_set_startTime (v : Z) (d : t) :
  fields (set_startTime v d) =
  {| _id := _id (fields d); startTime := v;
     endTime := endTime (fields d);
     attendanceWindow := attendanceWindow (fields d);
     status := status (fields d);
     settings := settings (fields d); attendance := attendance (fields d);
     statistics := statistics (fields d) |}.
Proof. reflexivity. Qed.

Lemma fields_set_endTime (v : Z) (d : t) :
  fields (set_endTime v d) =
  {| _id := _id (fields d); startTime := startTime (fields d);
     endTime := v;
     attendanceWindow := attendanceWindow (fields d);
     status := status (fields d);
     settings := settings (fields d); attendance := attendance (fields d);
     statistics := statistics (fields d) |}.
Proof. reflexivity. Qed.

Lemma fields_set_attendanceWindow_start (v : Z) (d : t) :
  fields (set_attendanceWindow_start v d) =
  {| _id := _id (fields d); startTime := startTime (fields d);
     endTime := endTime (fields d);
     attendanceWindow :=
       {| w_start := v; w_end := w_end (attendanceWindow (fields d)) |};
     status := status (fields d);
     settings := settings (fields d); attendance := attendance (fields d);
     statistics := statistics (fields d) |}.
Proof. reflexivity. Qed.

Lemma fields_set_attendanceWindow_end (v : Z) (d : t) :
  fields (set_attendanceWindow_end v d) =
  {| _id := _id (fields d); startTime := startTime (fields d);
     endTime := endTime (fields d);
     attendanceWindow :=
       {| w_start := w_start (attendanceWindow (fields d)); w_end := v |};
     status := status (fields d);
     settings := settings (fields d); attendance := attendance (fields d);
     statistics := statistics (fields d) |}.
Proof. reflexivity. Qed.

Lemma statistics_set_statistics (path : string) (changed : bool)
    (v : Statistics) (d : t) :
  statistics (fields (set_statistics path changed v d)) = v.
Proof. reflexivity. Qed.

Lemma statistics_set_totalStudents (v : Z) (d : t) :
  statistics (fields (set_totalStudents v d)) =
  {| totalStudents := v;
     presentCount := presentCount (statistics (fields d));
     absentCount := absentCount (statistics (fields d));
     lateCount := lateCount (statistics (fields d));
     excusedCount := excusedCount (statistics (fields d));
     attendancePercentage := attendancePercentage (statistics (fields d)) |}.
Proof. reflexivity. Qed.

Lemma statistics_set_presentCount (v : Z) (d : t) :
  statistics (fields (set_presentCount v d)) =
  {| totalStudents := totalStudents (statistics (fields d));
     presentCount := v;
     absentCount := absentCount (statistics (fields d));
     lateCount := lateCount (statistics (fields d));
     excusedCount := excusedCount (statistics (fields d));
     attendancePercentage := attendancePercentage (statistics (fields d)) |}.
Proof. reflexivity. Qed.

Lemma statistics_set_absentCount (v : Z) (d : t) :
  statistics (fields (set_absentCount v d)) =
  {| totalStudents := totalStudents (statistics (fields d));
     presentCount := presentCount (statistics (fields d));
     absentCount := v;
     lateCount := lateCount (statistics (fields d));
     excusedCount := excusedCount (statistics (fields d));
     attendancePercentage := attendancePercentage (statistics (fields d)) |}.
Proof. reflexivity. Qed.

Lemma statistics_set_lateCount (v : Z) (d : t) :
  statistics (fields (set_lateCount v d)) =
  {| totalStudents := totalStudents (statistics (fields d));
     presentCount := presentCount (statistics (fields d));
     absentCount := absentCount (statistics (fields d));
     lateCount := v;
     excusedCount := excusedCount (statistics (fields d));
     attendancePercentage := attendancePercentage (statistics (fields d)) |}.
Proof. reflexivity. Qed.

Lemma statistics_set_excusedCount (v : Z) (d : t) :
  statistics (fields (set_excusedCount v d)) =
  {| totalStudents := totalStudents (statistics (fields d));
     presentCount := presentCount (statistics (fields d));
     absentCount := absentCount (statistics (fields d));
     lateCount := lateCount (statistics (fields d));
     excusedCount := v;
     attendancePercentage := attendancePercentage (statistics (fields d)) |}.
Proof. reflexivity. Qed.

Lemma statistics_set_attendancePercentage (v : float) (d : t) :
  statistics (fields (set_attendancePercentage v d)) =
  {| totalStudents := totalStudents (statistics (fields d));
     presentCount := presentCount (statistics (fields d));
     absentCount := absentCount (statistics (fields d));
     lateCount := lateCount (statistics (fields d));
     excusedCount := excusedCount (statistics (fields d));
     attendancePercentage := v |}.
Proof. reflexivity. Qed.

Ltac by_statistics :=
  repeat (first
    [ rewrite statistics_set_totalStudents
    | rewrite statistics_set_presentCount
    | rewrite statistics_set_absentCount
    | rewrite statistics_set_lateCount
    | rewrite statistics_set_excusedCount
    | rewrite statistics_set_attendancePercentage ];
    cbn [totalStudents presentCount absentCount lateCount excusedCount
         attendancePercentage]).

Lemma fields_save (d : t) : fields (save d) = fields (pre_save d).
Proof. reflexivity. Qed.

(** Rewriting with the assignments, one level at a time. *)
Ltac by_setters :=
  repeat (first
    [ rewrite fields_set_status
    | rewrite fields_set_startTime
    | rewrite fields_set_endTime
    | rewrite fields_set_attendanceWindow_start
    | rewrite fields_set_attendanceWindow_end ];
    cbn [_id startTime endTime attendanceWindow status settings attendance
         statistics w_start w_end]).

End SessionSetters.

Section SessionFacts.

Import Session SessionSetters.
Local Open Scope Z_scope.

(** What the middleware leaves alone. *)
Lemma pre_save_frame (d : t) :
  status (fields (pre_save d)) = status (fields d) /\
  startTime (fields (pre_save d)) = startTime (fields d) /\
  endTime (fields (pre_save d)) = endTime (fields d) /\
  settings (fields (pre_save d)) = settings (fields d) /\
  attendance (fields (pre_save d)) = attendance (fields d) /\
  statistics (fields (pre_save d)) = statistics (fields d) /\
  _id (fields (pre_save d)) = _id (fields d).
Proof. split_hook; repeat split; reflexivity. Qed.

(** The middleware either derives the window or keeps the stored one,
    by what it reads from the change tracking. *)
Lemma pre_save_window (d : t) :
  attendanceWindow (fields (pre_save d)) =
  if isNew d || isModified "startTime" d
     || isModified "attendanceWindowMinutes" d
  then derived_window d
  else attendanceWindow (fields d).
Proof. split_hook; reflexivity. Qed.

(** A session that already has the derived window keeps it on save. *)
Lemma save_keeps_derived (d : t) :
  attendanceWindow (fields d) = derived_window d ->
  attendanceWindow (fields (save d)) = derived_window d.
Proof.
  intros H. rewrite fields_save, pre_save_window.
  destruct (_ || _ || _); [reflexivity | exact H].
Qed.

(** A new session, or one whose start time was set, is saved with the
    derived window. *)
Lemma save_derives_window (d : t) :
  isNew d = true \/ In "startTime" (modified d) ->
  attendanceWindow (fields (save d)) = derived_window d.
Proof.
  intros H. rewrite fields_save, pre_save_window.
  assert (C : isNew d || isModified "startTime" d = true).
  { destruct H as [-> | H]; [reflexivity |].
    apply orb_true_iff. right. unfold isModified.
    apply existsb_exists. exists "startTime". split; [exact H | reflexivity]. }
  rewrite C. reflexivity.
Qed.

(** The path the middleware asks about is not the schema path of the
    setting: a change of the setting alone is not seen. *)
Lemma minutes_path_not_seen (d : t) (m : Z) :
  isNew d = false -> modified d = [] ->
  isModified "attendanceWindowMinutes" (set_attendanceWindowMinutes m d) = false
  /\ isModified "startTime" (set_attendanceWindowMinutes m d) = false.
Proof.
  intros Hn Hm. unfold isModified, set_attendanceWindowMinutes, assign.
  cbn [modified]. rewrite Hn, Hm. cbn [existsb orb].
  destruct (negb _); split; reflexivity.
Qed.

(** Under its schema path the change is seen. *)
Lemma minutes_schema_path_seen (d : t) (m : Z) :
  m <> attendanceWindowMinutes (settings (fields d)) ->
  isModified "settings.attendanceWindowMinutes"
    (set_attendanceWindowMinutes m d) = true.
Proof.
  intros H. apply Z.eqb_neq in H.
  unfold isModified, set_attendanceWindowMinutes, assign. cbn [modified fields].
  rewrite H. cbn [negb].
  destruct (existsb (String.eqb "settings.attendanceWindowMinutes") (modified d))
    eqn:E.
  - apply existsb_exists in E. destruct E as (x & Hx & Ex).
    apply existsb_exists. exists x. split; [exact Hx |].
    rewrite String.eqb_sym, Ex. reflexivity.
  - rewrite orb_true_r. reflexivity.
Qed.

(** Saving after a change of the setting alone keeps the stored window. *)
Lemma save_after_minutes_only (d : t) (m : Z) :
  isNew d = false -> modified d = [] ->
  attendanceWindow (fields (save (set_attendanceWindowMinutes m d)))
  = attendanceWindow (fields d).
Proof.
  intros Hn Hm. rewrite fields_save, pre_save_window.
  destruct (minutes_path_not_seen d m Hn Hm) as [-> ->].
  replace (isNew (set_attendanceWindowMinutes m d)) with false
    by (symmetry; exact Hn).
  reflexivity.
Qed.

(** The fields of a started session before it is saved. *)
Lemma startSession_fields (d : t) (now : Z) :
  status (fields (startSession d now)) = active /\
  startTime (fields (startSession d now)) = now /\
  attendanceWindow (fields (startSession d now)) =
    {| w_start := now;
       w_end := now + attendanceWindowMinutes (settings (fields d)) * 60 * 1000 |} /\
  endTime (fields (startSession d now)) = endTime (fields d) /\
  settings (fields (startSession d now)) = settings (fields d) /\
  attendance (fields (startSession d now)) = attendance (fields d).
Proof.
  unfold startSession. cbv zeta. rewrite fields_save.
  match goal with
  | |- context [pre_save ?x] =>
      destruct (pre_save_frame x) as (Hs & Ht & He & Hg & Ha & _);
      pose proof (pre_save_window x) as Hw;
      revert Hs Ht He Hg Ha Hw; generalize (pre_save x)
  end.
  intros y Hs Ht He Hg Ha Hw.
  rewrite Hs, Ht, He, Hg, Ha, Hw. unfold derived_window, window_end.
  destruct (_ || _ || _); by_setters; repeat split; reflexivity.
Qed.

(** C1, evaluated: a stored five-minute session whose only change is
    [settings.attendanceWindowMinutes = 10] is saved with the old
    window: its end stays five minutes after the start time, where the
    invariant asks for ten. *)
Theorem C1_window_stale_after_minutes_change :
  let d := save (set_attendanceWindowMinutes 10 (Samples.stored scheduled)) in
  attendanceWindowMinutes (settings (fields d)) = 10 /\
  startTime (fields d) = Samples.t0 /\
  w_end (attendanceWindow (fields d)) = Samples.t0 + 5 * 60 * 1000 /\
  w_end (attendanceWindow (fields d))
    <> startTime (fields d)
       + attendanceWindowMinutes (settings (fields d)) * 60 * 1000.
Proof.
  cbv zeta.
  rewrite (save_after_minutes_only (Samples.stored scheduled) 10 eq_refl eq_refl).
  repeat split; try reflexivity.
  vm_compute. discriminate.
Qed.

(** C3, as the code has it: [startSession] makes the session active,
    sets the start time to now and the window to
    [now, now + attendanceWindowMinutes] whatever the status was; it
    has no failing case. *)
Theorem C3_startSession_from_any_status (d : t) (now : Z) :
  status (fields (startSession d now)) = active /\
  startTime (fields (startSession d now)) = now /\
  attendanceWindow (fields (startSession d now)) =
    derived_window (startSession d now) /\
  w_start (attendanceWindow (fields (startSession d now))) = now /\
  w_end (attendanceWindow (fields (startSession d now))) =
    now + attendanceWindowMinutes (settings (fields d)) * 60 * 1000.
Proof.
  destruct (startSession_fields d now) as (Hs & Ht & Hw & _ & Hg & _).
  unfold derived_window. rewrite Hs, Ht, Hw, Hg.
  repeat split; reflexivity.
Qed.

(** C3 refuted: started again, a completed session becomes active. *)
Lemma C3_completed_session_restarts :
  status (fields (Samples.stored completed)) = completed /\
  status (fields (startSession (Samples.stored completed) (Samples.t0 + 7200000)))
    = active /\
  status (fields (startSession (Samples.stored completed) (Samples.t0 + 7200000)))
    <> status (fields (Samples.stored completed)).
Proof. repeat split; try reflexivity. vm_compute. discriminate. Qed.

(** C4, as the code has it: each operation writes its target status
    without reading the current one and returns the saved document, so
    the status after it is active, completed or cancelled from every
    state, the terminal ones too; [endSession] also sets the end time,
    and [cancelSession] leaves both times.  On a completed session
    [cancelSession] therefore changes the status; on a stored session
    that is cancelled already it changes nothing. *)
Theorem C4_transitions_unconditional (d : t) (now : Z) :
  status (fields (startSession d now)) = active /\
  status (fields (endSession d now)) = completed /\
  endTime (fields (endSession d now)) = now /\
  status (fields (cancelSession d)) = cancelled /\
  startTime (fields (cancelSession d)) = startTime (fields d) /\
  endTime (fields (cancelSession d)) = endTime (fields d) /\
  (status (fields d) = completed ->
   status (fields (cancelSession d)) <> status (fields d)) /\
  (status (fields d) = cancelled -> isNew d = false -> modified d = [] ->
   cancelSession d = d).
Proof.
  split; [apply startSession_fields |].
  assert (Hc : status (fields (cancelSession d)) = cancelled).
  { unfold cancelSession. rewrite fields_save.
    destruct (pre_save_frame (set_status cancelled d)) as (H & _).
    rewrite H. by_setters. reflexivity. }
  repeat split.
  - unfold endSession. rewrite fields_save.
    destruct (pre_save_frame (set_endTime now (set_status completed d)))
      as (H & _). rewrite H. by_setters. reflexivity.
  - unfold endSession. rewrite fields_save.
    destruct (pre_save_frame (set_endTime now (set_status completed d)))
      as (_ & _ & H & _). rewrite H. by_setters. reflexivity.
  - exact Hc.
  - unfold cancelSession. rewrite fields_save.
    destruct (pre_save_frame (set_status cancelled d)) as (_ & H & _).
    rewrite H. by_setters. reflexivity.
  - unfold cancelSession. rewrite fields_save.
    destruct (pre_save_frame (set_status cancelled d)) as (_ & _ & H & _).
    rewrite H. by_setters. reflexivity.
  - intros H. rewrite Hc, H. discriminate.
  - intros Hs Hn Hm. destruct d as [f n m]. destruct f.
    cbn in Hs, Hn, Hm. subst. reflexivity.
Qed.

(** C4 at work: cancelled, the stored completed sample session has
    another status than before, and the stored cancelled one is the
    document it was. *)
Lemma C4_cancel_on_terminal_sessions :
  status (fields (cancelSession (Samples.stored completed)))
    <> status (fields (Samples.stored completed)) /\
  cancelSession (Samples.stored cancelled) = Samples.stored cancelled.
Proof.
  split.
  - apply (C4_transitions_unconditional (Samples.stored completed) 0).
    reflexivity.
  - apply (C4_transitions_unconditional (Samples.stored cancelled) 0);
      reflexivity.
Defined.

(** C4 refuted: a completed session can be cancelled, and a cancelled
    one can be ended. *)
Lemma C4_terminal_states_not_absorbing :
  status (fields (cancelSession (Samples.stored completed))) = cancelled /\
  status (fields (endSession (Samples.stored cancelled) (Samples.t0 + 7200000)))
    = completed.
Proof. split; reflexivity. Qed.

(** The window is shut outside [attendanceWindow.start, end], whatever
    the status. *)
Lemma window_shut_outside (d : t) (now : Z) :
  now < w_start (attendanceWindow (fields d))
  \/ w_end (attendanceWindow (fields d)) < now ->
  isAttendanceWindowOpen d now = false.
Proof.
  intros H. unfold isAttendanceWindowOpen.
  destruct (Status_eqb _ _); [| reflexivity]. cbn [andb].
  destruct H as [H | H].
  - apply Z.leb_gt in H. rewrite H. reflexivity.
  - apply Z.leb_gt in H. rewrite H. apply andb_false_r.
Qed.

Lemma includes_In (ids : list ObjectId) (x : ObjectId) :
  includes ids x = true <-> In x ids.
Proof.
  unfold includes. rewrite existsb_exists. split.
  - intros (y & Hy & E). apply String.eqb_eq in E. subst. exact Hy.
  - intros H. exists x. split; [exact H | apply String.eqb_refl].
Qed.

(** C6: [canMarkAttendance] refuses with the closed-window reason when
    the window is not open, which is the case before its start and
    after its end also for an active session; else it refuses with the
    already-marked reason when the id is in [attendance]; else it
    allows, with no reason. *)
Theorem C6_canMarkAttendance_decision (d : t) (studentId : ObjectId) (now : Z) :
  (isAttendanceWindowOpen d now = false ->
   canMarkAttendance d studentId now =
     {| canMark := false; reason := Some "Attendance window is closed" |}) /\
  (status (fields d) = active ->
   now < w_start (attendanceWindow (fields d))
   \/ w_end (attendanceWindow (fields d)) < now ->
   canMarkAttendance d studentId now =
     {| canMark := false; reason := Some "Attendance window is closed" |}) /\
  (isAttendanceWindowOpen d now = true ->
   In studentId (attendance (fields d)) ->
   canMarkAttendance d studentId now =
     {| canMark := false; reason := Some "Attendance already marked" |}) /\
  (isAttendanceWindowOpen d now = true ->
   ~ In studentId (attendance (fields d)) ->
   canMarkAttendance d studentId now = {| canMark := true; reason := None |}).
Proof.
  unfold canMarkAttendance. repeat split.
  - intros ->. reflexivity.
  - intros _ H. rewrite (window_shut_outside d now H). reflexivity.
  - intros -> H. apply includes_In in H. rewrite H. reflexivity.
  - intros -> H. cbn [negb].
    destruct (includes (attendance (fields d)) studentId) eqn:E;
      [| reflexivity].
    apply includes_In in E. contradiction.
Qed.

(** C6 at work: the sample session five minutes and one millisecond
    after its start, one millisecond before it, and inside the window
    with and without the student's id in [attendance]. *)
Lemma C6_canMarkAttendance_cases :
  canMarkAttendance (Samples.stored active) Samples.student1
    (Samples.t0 + 300001)
  = {| canMark := false; reason := Some "Attendance window is closed" |} /\
  canMarkAttendance (Samples.stored active) Samples.student1 (Samples.t0 - 1)
  = {| canMark := false; reason := Some "Attendance window is closed" |} /\
  canMarkAttendance
    {| fields := Samples.session_fields active [Samples.student1]
                   Samples.no_statistics;
       isNew := false; modified := [] |}
    Samples.student1 (Samples.t0 + 1)
  = {| canMark := false; reason := Some "Attendance already marked" |} /\
  canMarkAttendance (Samples.stored active) Samples.student1 (Samples.t0 + 1)
  = {| canMark := true; reason := None |}.
Proof.
  split; [| split; [| split]].
  - apply (proj1 (proj2 (C6_canMarkAttendance_decision (Samples.stored active)
                          Samples.student1 (Samples.t0 + 300001)))).
    + reflexivity.
    + right. vm_compute. reflexivity.
  - apply (proj1 (C6_canMarkAttendance_decision (Samples.stored active)
                    Samples.student1 (Samples.t0 - 1))).
    reflexivity.
  - apply (proj1 (proj2 (proj2 (C6_canMarkAttendance_decision
             {| fields := Samples.session_fields active [Samples.student1]
                            Samples.no_statistics;
                isNew := false; modified := [] |}
             Samples.student1 (Samples.t0 + 1))))).
    + reflexivity.
    + left. reflexivity.
  - apply (proj2 (proj2 (proj2 (C6_canMarkAttendance_decision
             (Samples.stored active) Samples.student1 (Samples.t0 + 1))))).
    + reflexivity.
    + intros [].
Defined.

End SessionFacts.

(** ** Grouping and counting *)

Section Grouping.

Import Attendance.
Local Open Scope Z_scope.

Lemma Status_eqb_eq (a b : Status) : Status_eqb a b = true <-> a = b.
Proof. destruct a, b; cbn; split; intros H; congruence. Qed.

Lemma Status_eqb_refl (a : Status) : Status_eqb a a = true.
Proof. destruct a; reflexivity. Qed.

(** A running sum started at [a] is [a] plus the sum started at 0. *)
Lemma fold_left_add_acc {A : Type} (f : A -> Z) (l : list A) (a : Z) :
  fold_left (fun acc x => acc + f x) l a
  = a + fold_left (fun acc x => acc + f x) l 0.
Proof.
  revert a. induction l as [| x l IH]; intros a; cbn.
  - lia.
  - rewrite IH. rewrite (IH (f x)). lia.
Qed.

Lemma total_of_bump (st : Status) (rows : list GroupRow) :
  total_of (bump st rows) = total_of rows + 1.
Proof.
  unfold total_of. induction rows as [| r rows IH]; cbn.
  - reflexivity.
  - destruct (Status_eqb (g_id r) st); cbn.
    + rewrite fold_left_add_acc.
      rewrite (fold_left_add_acc _ rows (g_count r)). lia.
    + rewrite fold_left_add_acc. rewrite IH.
      rewrite (fold_left_add_acc _ rows (g_count r)). lia.
Qed.

Lemma sum_cond_bump (st st' : Status) (rows : list GroupRow) :
  sum_cond st (bump st' rows)
  = sum_cond st rows + (if Status_eqb st' st then 1 else 0).
Proof.
  unfold sum_cond. induction rows as [| r rows IH]; cbn.
  - reflexivity.
  - destruct (Status_eqb (g_id r) st') eqn:E; cbn.
    + apply Status_eqb_eq in E. subst st'.
      rewrite fold_left_add_acc.
      rewrite (fold_left_add_acc _ rows (if Status_eqb (g_id r) st then _ else _)).
      destruct (Status_eqb (g_id r) st); lia.
    + rewrite fold_left_add_acc. rewrite IH.
      rewrite (fold_left_add_acc _ rows (if Status_eqb (g_id r) st then _ else _)).
      lia.
Qed.

Lemma count_of_bump (st st' : Status) (rows : list GroupRow) :
  Session.count_of st (bump st' rows)
  = Session.count_of st rows + (if Status_eqb st' st then 1 else 0).
Proof.
  unfold Session.count_of. induction rows as [| r rows IH]; cbn.
  - destruct (Status_eqb st' st); reflexivity.
  - destruct (Status_eqb (g_id r) st') eqn:E; cbn.
    + apply Status_eqb_eq in E. subst st'.
      destruct (Status_eqb (g_id r) st); [reflexivity | lia].
    + destruct (Status_eqb (g_id r) st) eqn:F.
      * assert (G : Status_eqb st' st = false).
        { apply Status_eqb_eq in F. subst st.
          destruct st', (g_id r); cbn in *; congruence. }
        rewrite G. lia.
      * exact IH.
Qed.

(** A measure that each [bump] raises by a weight of the status is,
    after grouping, the sum of the weights of the documents. *)
Lemma fold_bump_measure (mu : list GroupRow -> Z) (w : Status -> Z) :
  (forall st rows, mu (bump st rows) = mu rows + w st) ->
  forall docs rows0,
    mu (fold_left (fun rows d => bump (status d) rows) docs rows0)
    = mu rows0 + fold_left (fun acc d => acc + w (status d)) docs 0.
Proof.
  intros H docs. induction docs as [| d docs IH]; intros rows0; cbn.
  - lia.
  - rewrite IH, H. rewrite (fold_left_add_acc _ docs (w (status d))). lia.
Qed.

Lemma sum_indicator (st : Status) (docs : list t) :
  fold_left (fun acc d => acc + (if Status_eqb (status d) st then 1 else 0))
            docs 0
  = count_status st docs.
Proof.
  unfold count_status. induction docs as [| d docs IH]; cbn.
  - reflexivity.
  - rewrite fold_left_add_acc, IH.
    destruct (Status_eqb (status d) st); cbn [List.length]; lia.
Qed.

Lemma sum_ones (docs : list t) :
  fold_left (fun acc (d : t) => acc + 1) docs 0 = Z.of_nat (List.length docs).
Proof.
  induction docs as [| d docs IH]; cbn.
  - reflexivity.
  - rewrite (fold_left_add_acc (fun _ => 1)), IH. cbn [List.length]. lia.
Qed.

(** What the first [$group] stage holds: the counter found for a
    status, the conditional sum for it, and the sum of all counters. *)
Lemma group_by_status_counts (docs : list t) (st : Status) :
  Session.count_of st (group_by_status docs) = count_status st docs /\
  sum_cond st (group_by_status docs) = count_status st docs /\
  total_of (group_by_status docs) = Z.of_nat (List.length docs).
Proof.
  unfold group_by_status. repeat split.
  - rewrite (fold_bump_measure (Session.count_of st)
               (fun s => if Status_eqb s st then 1 else 0)).
    + rewrite sum_indicator. reflexivity.
    + intros. apply count_of_bump.
  - rewrite (fold_bump_measure (sum_cond st)
               (fun s => if Status_eqb s st then 1 else 0)).
    + rewrite sum_indicator. reflexivity.
    + intros. apply sum_cond_bump.
  - rewrite (fold_bump_measure total_of (fun _ => 1)).
    + rewrite sum_ones. reflexivity.
    + intros. apply total_of_bump.
Qed.

(** There is a group exactly when there is a document. *)
Lemma group_by_status_nil (docs : list t) :
  group_by_status docs = [] <-> docs = [].
Proof.
  split.
  - intros H. destruct (group_by_status_counts docs present) as (_ & _ & T).
    rewrite H in T. destruct docs; [reflexivity | discriminate T].
  - intros ->. reflexivity.
Qed.

End Grouping.

(** ** Statistics of a session and summary of a student *)

Section Statistics.

Import Attendance SessionSetters.
Local Open Scope Z_scope.

(** The records of the collection that belong to a session. *)
Lemma updateStatistics_statistics (d : Session.t) (coll : list t) :
  let mine :=
    filter (fun r => String.eqb (session r) (Session._id (Session.fields d)))
           coll in
  Session.statistics (Session.fields (Session.updateStatistics d coll)) =
  {| Session.totalStudents := Z.of_nat (List.length mine);
     Session.presentCount := count_status present mine;
     Session.absentCount := count_status absent mine;
     Session.lateCount := count_status late mine;
     Session.excusedCount := count_status excused mine;
     Session.attendancePercentage :=
       if 0 <? Z.of_nat (List.length mine)
       then Session.percentage (count_status present mine)
                               (Z.of_nat (List.length mine))
       else Session.attendancePercentage
              (Session.statistics (Session.fields d)) |}.
Proof.
  cbv zeta. unfold Session.updateStatistics. cbv zeta.
  set (mine := filter _ coll).
  destruct (group_by_status_counts mine present) as (Hp & _ & Ht).
  destruct (group_by_status_counts mine absent) as (Ha & _).
  destruct (group_by_status_counts mine late) as (Hl & _).
  destruct (group_by_status_counts mine excused) as (He & _).
  unfold total_of in Ht.
  rewrite fields_save.
  match goal with
  | |- context [Session.pre_save ?x] =>
      destruct (pre_save_frame x) as (_ & _ & _ & _ & _ & H & _);
      rewrite H; clear H
  end.
  by_statistics. rewrite Ht, Hp.
  destruct (0 <? Z.of_nat (List.length mine));
    by_statistics; rewrite ?Ha, ?Hl, ?He; reflexivity.
Qed.

(** C5, evaluated: over three present, one absent and one late record
    the percentage is 60, and for a session that never had one it is 0
    over no records; but a session whose stored percentage is 60 keeps
    60 when recomputed over no records, next to counters that are all 0. *)
Theorem C5_percentage_stale_without_records :
  Session.attendancePercentage
    (Session.statistics
       (Session.fields
          (Session.updateStatistics (Samples.stored Session.active)
             Samples.five_records))) = 60%float /\
  Session.attendancePercentage
    (Session.statistics
       (Session.fields
          (Session.updateStatistics (Samples.stored Session.active) [])))
    = 0%float /\
  Session.statistics
    (Session.fields (Session.updateStatistics Samples.stored_with_60 [])) =
  {| Session.totalStudents := 0; Session.presentCount := 0;
     Session.absentCount := 0; Session.lateCount := 0;
     Session.excusedCount := 0; Session.attendancePercentage := 60%float |} /\
  PrimFloat.eqb
    (Session.attendancePercentage
       (Session.statistics
          (Session.fields (Session.updateStatistics Samples.stored_with_60 []))))
    0%float = false.
Proof.
  rewrite !updateStatistics_statistics. cbv zeta.
  repeat split; vm_compute; reflexivity.
Qed.

(** C10: when no record matches the filters the summary has no row;
    when some record matches it has exactly one row, with the total,
    the four counters and the percentage of the matching records; so a
    row is there only if a record matches. *)
Theorem C10_getStudentSummary_rows (coll : list t) (studentId : ObjectId)
    (classroomId : option ObjectId) (startDate endDate : option Z) :
  let matched :=
    filter (matches (matchStage studentId classroomId startDate endDate))
           coll in
  (matched = [] ->
   getStudentSummary coll studentId classroomId startDate endDate
   = Returns []) /\
  (matched <> [] ->
   getStudentSummary coll studentId classroomId startDate endDate
   = Returns [summary_of matched]) /\
  (forall r rows,
     getStudentSummary coll studentId classroomId startDate endDate
     = Returns (r :: rows) -> matched <> []).
Proof.
  cbv zeta. unfold getStudentSummary.
  set (matched := filter _ coll).
  assert (E : matched = [] -> addFields (group_all (group_by_status matched))
                            = Returns []).
  { intros ->. reflexivity. }
  split; [exact E | split].
  - intros N.
    destruct (group_by_status_counts matched present) as (_ & Hp & Ht).
    destruct (group_by_status_counts matched absent) as (_ & Ha & _).
    destruct (group_by_status_counts matched late) as (_ & Hl & _).
    destruct (group_by_status_counts matched excused) as (_ & He & _).
    destruct (group_by_status matched) as [| g gs] eqn:G.
    { apply group_by_status_nil in G. contradiction. }
    unfold group_all. rewrite Hp, Ha, Hl, He, Ht.
    cbn [addFields]. unfold addFields1, divide.
    cbn [t_total t_present t_absent t_late t_excused].
    assert (T : (Z.of_nat (List.length matched) =? 0) = false).
    { apply Z.eqb_neq. destruct matched; [contradiction | cbn; lia]. }
    rewrite T. reflexivity.
  - intros r rows H N. rewrite (E N) in H. discriminate H.
Qed.

(** C10 at work: a student without records gets no row, the sample
    student gets the row of five records, three of them present. *)
Lemma C10_getStudentSummary_cases :
  getStudentSummary Samples.five_records "5f1b000000000000000000ff"
    None None None = Returns [] /\
  getStudentSummary Samples.five_records Samples.student1 None None None
  = Returns [{| total := 5; present_ := 3; absent_ := 1; late_ := 1;
                excused_ := 0; attendancePercentage := 60%float |}].
Proof.
  split.
  - apply (proj1 (C10_getStudentSummary_rows Samples.five_records
                    "5f1b000000000000000000ff" None None None)).
    reflexivity.
  - rewrite (proj1 (proj2 (C10_getStudentSummary_rows Samples.five_records
                             Samples.student1 None None None))).
    + reflexivity.
    + discriminate.
Defined.

End Statistics.

(** ** The collection accepts a second record of a pair *)

Section Storage.

Import Attendance.

Lemma no_id_clash (coll : list t) (d : t) :
  (forall d', In d' coll -> _id d' <> _id d) ->
  existsb (same_key id_index d) coll = false.
Proof.
  intros H. induction coll as [| x coll IH]; cbn.
  - reflexivity.
  - rewrite IH by (intros d' Hd; apply H; right; exact Hd).
    unfold same_key. cbn.
    destruct (String.eqb (_id d) (_id x)) eqn:E; [| reflexivity].
    apply String.eqb_eq in E. exfalso. apply (H x); [left; reflexivity |].
    symmetry. exact E.
Qed.

(** A fresh [_id] is all an insert needs. *)
Lemma insert_fresh_id (coll : list t) (d : t) :
  (forall d', In d' coll -> _id d' <> _id d) ->
  insert coll d = Inserted (coll ++ [d]).
Proof.
  intros H. unfold insert. cbn [find]. unfold violates at 1.
  rewrite (no_id_clash coll d H). reflexivity.
Qed.

(** C2, as the code has it: none of the declared indexes is unique, so
    a record with a fresh [_id] is inserted whatever the collection
    holds, also when it holds a record of the same session and student;
    every record of the pair stays, and the new one is added to them. *)
Theorem C2_insert_accepts_any_pair (coll : list t) (d : t) :
  (forall d', In d' coll -> _id d' <> _id d) ->
  forallb (fun ix => negb (ix_unique ix)) indexes = true /\
  insert coll d = Inserted (coll ++ [d]) /\
  records_of (session d) (student d) (coll ++ [d])
  = (records_of (session d) (student d) coll ++ [d])%list.
Proof.
  intros H. split; [reflexivity | split].
  - apply insert_fresh_id. exact H.
  - unfold records_of. rewrite filter_app. cbn [filter].
    rewrite !String.eqb_refl. reflexivity.
Qed.

(** C2 at work on the sample records. *)
Lemma C2_insert_accepts_sample :
  forallb (fun ix => negb (ix_unique ix)) indexes = true /\
  insert [Samples.first_mark] Samples.second_mark
  = Inserted ([Samples.first_mark] ++ [Samples.second_mark]) /\
  records_of (session Samples.second_mark) (student Samples.second_mark)
    ([Samples.first_mark] ++ [Samples.second_mark])
  = (records_of (session Samples.second_mark) (student Samples.second_mark)
       [Samples.first_mark] ++ [Samples.second_mark])%list.
Proof.
  apply (C2_insert_accepts_any_pair [Samples.first_mark] Samples.second_mark).
  intros d' [<- | []]. discriminate.
Defined.

(** C2 refuted: two requests of one student read the same active
    session inside its window and are both allowed; both their inserts
    succeed, and the collection then holds two records of the pair. *)
Lemma C2_two_records_of_one_pair :
  Session.canMark
    (Session.canMarkAttendance (Samples.stored Session.active)
       Samples.student1 (Samples.t0 + 60000)) = true /\
  insert [] Samples.first_mark = Inserted [Samples.first_mark] /\
  insert [Samples.first_mark] Samples.second_mark
  = Inserted [Samples.first_mark; Samples.second_mark] /\
  List.length
    (records_of "5f1a00000000000000000001" Samples.student1
       [Samples.first_mark; Samples.second_mark]) = 2%nat.
Proof.
  split; [reflexivity | split; [| split]].
  - apply (insert_fresh_id [] Samples.first_mark). intros d' [].
  - apply (insert_fresh_id [Samples.first_mark] Samples.second_mark).
    intros d' [<- | []]. discriminate.
  - reflexivity.
Qed.

End Storage.

(** ** Distance and geofence *)

Section Geofence.

Import Attendance.
Local Open Scope R_scope.

(** The haversine term of two points does not depend on their order. *)
Lemma haversine_term_sym (lat1 lon1 lat2 lon2 : R) :
  sin ((lat2 - lat1) * PI / 180 / 2) * sin ((lat2 - lat1) * PI / 180 / 2) +
  cos (lat1 * PI / 180) * cos (lat2 * PI / 180) *
  sin ((lon2 - lon1) * PI / 180 / 2) * sin ((lon2 - lon1) * PI / 180 / 2)
  =
  sin ((lat1 - lat2) * PI / 180 / 2) * sin ((lat1 - lat2) * PI / 180 / 2) +
  cos (lat2 * PI / 180) * cos (lat1 * PI / 180) *
  sin ((lon1 - lon2) * PI / 180 / 2) * sin ((lon1 - lon2) * PI / 180 / 2).
Proof.
  replace ((lat2 - lat1) * PI / 180 / 2) with (- ((lat1 - lat2) * PI / 180 / 2))
    by (unfold Rdiv; ring).
  replace ((lon2 - lon1) * PI / 180 / 2) with (- ((lon1 - lon2) * PI / 180 / 2))
    by (unfold Rdiv; ring).
  rewrite !sin_neg. ring.
Qed.

(** C8: the distance from a to b is the distance from b to a. *)
Theorem C8_calculateDistance_symmetric (lat1 lon1 lat2 lon2 : R) :
  calculateDistance lat1 lon1 lat2 lon2 = calculateDistance lat2 lon2 lat1 lon1.
Proof.
  unfold calculateDistance. cbv zeta.
  rewrite (haversine_term_sym lat1 lon1 lat2 lon2). reflexivity.
Qed.

Lemma atan2_0_1 : atan2 0 1 = 0.
Proof.
  unfold atan2. destruct (Rlt_dec 0 1) as [_ | N]; [| exfalso; lra].
  replace (0 / 1) with 0 by (unfold Rdiv; ring). apply atan_0.
Qed.

(** A point is at distance 0 from itself. *)
Lemma calculateDistance_same (lat lon : R) :
  calculateDistance lat lon lat lon = 0.
Proof.
  unfold calculateDistance. cbv zeta.
  replace ((lat - lat) * PI / 180 / 2) with 0 by (unfold Rdiv; ring).
  replace ((lon - lon) * PI / 180 / 2) with 0 by (unfold Rdiv; ring).
  rewrite sin_0.
  replace (0 * 0 + cos (lat * PI / 180) * cos (lat * PI / 180) * 0 * 0)
    with 0 by ring.
  rewrite Rminus_0_r, sqrt_0, sqrt_1, atan2_0_1. ring.
Qed.

Lemma falsy_0 : falsy 0 = true.
Proof. unfold falsy. destruct (Req_dec_T 0 0); [reflexivity | contradiction]. Qed.

(** C7: a record without a latitude or without a longitude is outside
    every fence, and the test returns: it does so for every centre and
    radius, and also when no centre is passed at all. *)
Theorem C7_missing_coordinate_is_outside (d : t)
    (classroomLocation : option Coordinates) (radius : R) :
  latitude (location d) = None \/ longitude (location d) = None ->
  isWithinGeofence d classroomLocation radius = Returns false.
Proof.
  unfold isWithinGeofence. intros [H | H]; rewrite H.
  - reflexivity.
  - destruct (latitude (location d)); reflexivity.
Qed.

(** C7 at work: the absent sample record, with a centre and without. *)
Lemma C7_missing_coordinate_cases :
  isWithinGeofence Samples.no_location (Some Samples.null_island) 1000
  = Returns false /\
  isWithinGeofence Samples.no_location None 1000 = Returns false.
Proof.
  split.
  - apply (C7_missing_coordinate_is_outside Samples.no_location
             (Some Samples.null_island) 1000).
    left. reflexivity.
  - apply (C7_missing_coordinate_is_outside Samples.no_location None 1000).
    right. reflexivity.
Defined.

(** C9: a record whose latitude is 0 or whose longitude is 0 is
    outside every fence, as a record without that coordinate is. *)
Theorem C9_zero_coordinate_is_outside (d : t)
    (classroomLocation : option Coordinates) (radius : R) :
  latitude (location d) = Some 0 \/ longitude (location d) = Some 0 ->
  isWithinGeofence d classroomLocation radius = Returns false.
Proof.
  unfold isWithinGeofence. intros [H | H]; rewrite H.
  - destruct (longitude (location d)); [| reflexivity].
    rewrite falsy_0. reflexivity.
  - destruct (latitude (location d)); [| reflexivity].
    rewrite falsy_0, orb_true_r. reflexivity.
Qed.

(** C9 at work: the sample record taken at the very centre of a fence
    of 100 metres has both coordinates, is at distance 0 from the
    centre, which is within the radius, and is judged outside. *)
Lemma C9_centre_of_fence_is_outside :
  latitude (location Samples.at_null_island) = Some 0 /\
  longitude (location Samples.at_null_island) = Some 0 /\
  calculateDistance 0 0 (c_latitude Samples.null_island)
    (c_longitude Samples.null_island) <= 100 /\
  isWithinGeofence Samples.at_null_island (Some Samples.null_island) 100
  = Returns false.
Proof.
  split; [reflexivity | split; [reflexivity | split]].
  - cbn [c_latitude c_longitude Samples.null_island].
    rewrite calculateDistance_same. lra.
  - apply (C9_zero_coordinate_is_outside Samples.at_null_island
             (Some Samples.null_island) 100).
    left. reflexivity.
Defined.

End Geofence.

(** * Further properties *)

(** ** Saving and the change tracking *)

Module SessionPaths.

Import Session SessionSetters.
Local Open Scope Z_scope.

Lemma fields_set_statistics (path : string) (changed : bool) (v : Statistics)
    (d : t) :
  fields (set_statistics path changed v d) =
  {| _id := _id (fields d); startTime := startTime (fields d);
     endTime := endTime (fields d);
     attendanceWindow := attendanceWindow (fields d);
     status := status (fields d);
     settings := settings (fields d); attendance := attendance (fields d);
     statistics := v |}.
Proof. reflexivity. Qed.

(** An assignment to a path that is neither the path asked about nor
    above or below it does not make that path modified. *)
Lemma isModified_assign_other (path p : string) (changed : bool)
    (f : Fields) (d : t) :
  String.eqb path p || ancestor p path || ancestor path p = false ->
  isModified p d = false ->
  isModified p (assign path changed f d) = false.
Proof.
  intros H1 H2. unfold isModified, assign in *. cbn [modified].
  destruct (existsb (String.eqb path) (modified d)); [exact H2 |].
  destruct (isNew d || changed); [| exact H2].
  cbn [existsb]. rewrite H1, H2. reflexivity.
Qed.

Ltac quiet_step :=
  match goal with
  | H : quiet ?d |- quiet _ =>
      destruct H as (Hn & Hs & Hm); repeat split;
      [ exact Hn
      | apply isModified_assign_other; [reflexivity | exact Hs]
      | apply isModified_assign_other; [reflexivity | exact Hm] ]
  end.

Lemma quiet_set_status (v : Status) (d : t) : quiet d -> quiet (set_status v d).
Proof. intros H. unfold set_status. quiet_step. Qed.

Lemma quiet_set_endTime (v : Z) (d : t) : quiet d -> quiet (set_endTime v d).
Proof. intros H. unfold set_endTime. quiet_step. Qed.

Lemma quiet_set_totalStudents (v : Z) (d : t) :
  quiet d -> quiet (set_totalStudents v d).
Proof. intros H. unfold set_totalStudents, set_statistics. quiet_step. Qed.

Lemma quiet_set_presentCount (v : Z) (d : t) :
  quiet d -> quiet (set_presentCount v d).
Proof. intros H. unfold set_presentCount, set_statistics. quiet_step. Qed.

Lemma quiet_set_absentCount (v : Z) (d : t) :
  quiet d -> quiet (set_absentCount v d).
Proof. intros H. unfold set_absentCount, set_statistics. quiet_step. Qed.

Lemma quiet_set_lateCount (v : Z) (d : t) :
  quiet d -> quiet (set_lateCount v d).
Proof. intros H. unfold set_lateCount, set_statistics. quiet_step. Qed.

Lemma quiet_set_excusedCount (v : Z) (d : t) :
  quiet d -> quiet (set_excusedCount v d).
Proof. intros H. unfold set_excusedCount, set_statistics. quiet_step. Qed.

Lemma quiet_set_attendancePercentage (v : float) (d : t) :
  quiet d -> quiet (set_attendancePercentage v d).
Proof. intros H. unfold set_attendancePercentage, set_statistics. quiet_step. Qed.

(** A saved document is quiet. *)
Lemma quiet_save (d : t) : quiet (save d).
Proof. repeat split. Qed.

(** The middleware leaves a quiet document as it is. *)
Lemma pre_save_quiet (d : t) : quiet d -> pre_save d = d.
Proof.
  intros (Hn & Hs & Hm). unfold pre_save. rewrite Hn, Hs, Hm. reflexivity.
Qed.

Lemma t_ext (a b : t) :
  fields a = fields b -> isNew a = isNew b -> modified a = modified b ->
  a = b.
Proof. destruct a, b. cbn. intros -> -> ->. reflexivity. Qed.

Lemma Fields_ext (a b : Fields) :
  same_but_statistics a b -> statistics a = statistics b -> a = b.
Proof.
  destruct a, b. unfold same_but_statistics. cbn.
  intros (-> & -> & -> & -> & -> & -> & ->) ->. reflexivity.
Qed.

Lemma derived_window_ext (a b : t) :
  startTime (fields a) = startTime (fields b) ->
  settings (fields a) = settings (fields b) ->
  derived_window a = derived_window b.
Proof. intros H1 H2. unfold derived_window. rewrite H1, H2. reflexivity. Qed.

(** Saving keeps the invariant of the window. *)
Lemma save_keeps_invariant (d : t) :
  attendanceWindow (fields d) = derived_window d ->
  attendanceWindow (fields (save d)) = derived_window (save d).
Proof.
  intros H. rewrite (save_keeps_derived d H).
  apply derived_window_ext; rewrite fields_save;
    destruct (pre_save_frame d) as (_ & Ht & _ & Hg & _); congruence.
Qed.

End SessionPaths.

Module StatisticsShape.

Import Session SessionSetters SessionPaths.
Local Open Scope Z_scope.

Lemma sbs_refl (a : Fields) : same_but_statistics a a.
Proof. repeat split. Qed.

Lemma sbs_trans (a b c : Fields) :
  same_but_statistics a b -> same_but_statistics b c ->
  same_but_statistics a c.
Proof.
  unfold same_but_statistics.
  intros (A1 & A2 & A3 & A4 & A5 & A6 & A7) (B1 & B2 & B3 & B4 & B5 & B6 & B7).
  repeat split; congruence.
Qed.

Lemma sbs_set_statistics (path : string) (changed : bool) (v : Statistics)
    (d : t) :
  same_but_statistics (fields (set_statistics path changed v d)) (fields d).
Proof. repeat split. Qed.

(** The document that [updateStatistics] saves differs from the one it
    was called on at most in [statistics], and is quiet if that was. *)
Lemma updateStatistics_shape (d : t) (coll : list Attendance.t) :
  exists x,
    updateStatistics d coll = save x /\
    same_but_statistics (fields x) (fields d) /\
    (quiet d -> quiet x).
Proof.
  unfold updateStatistics. cbv zeta. eexists. split; [reflexivity |].
  split.
  - destruct (0 <? _);
      repeat (eapply sbs_trans; [apply sbs_set_statistics |]);
      apply sbs_refl.
  - intros Q. destruct (0 <? _).
    + apply quiet_set_attendancePercentage, quiet_set_excusedCount,
        quiet_set_lateCount, quiet_set_absentCount, quiet_set_presentCount,
        quiet_set_totalStudents, Q.
    + apply quiet_set_excusedCount,
        quiet_set_lateCount, quiet_set_absentCount, quiet_set_presentCount,
        quiet_set_totalStudents, Q.
Qed.

(** What [updateStatistics] keeps of the data, and when it keeps the
    window. *)
Lemma updateStatistics_frame (d : t) (coll : list Attendance.t) :
  _id (fields (updateStatistics d coll)) = _id (fields d) /\
  status (fields (updateStatistics d coll)) = status (fields d) /\
  startTime (fields (updateStatistics d coll)) = startTime (fields d) /\
  endTime (fields (updateStatistics d coll)) = endTime (fields d) /\
  settings (fields (updateStatistics d coll)) = settings (fields d) /\
  attendance (fields (updateStatistics d coll)) = attendance (fields d) /\
  (quiet d ->
   attendanceWindow (fields (updateStatistics d coll))
   = attendanceWindow (fields d)) /\
  (attendanceWindow (fields d) = derived_window d ->
   attendanceWindow (fields (updateStatistics d coll))
   = derived_window (updateStatistics d coll)).
Proof.
  destruct (updateStatistics_shape d coll)
    as (x & -> & (S1 & S2 & S3 & S4 & S5 & S6 & S7) & Q).
  rewrite fields_save.
  destruct (pre_save_frame x) as (F1 & F2 & F3 & F4 & F5 & _ & F7).
  repeat split; try congruence.
  - intros Qd. rewrite (pre_save_quiet x (Q Qd)). exact S4.
  - intros H. rewrite <- fields_save. apply save_keeps_invariant.
    rewrite S4, H. apply derived_window_ext; congruence.
Qed.

End StatisticsShape.

(** ** Saving twice, and the window over a session's life *)

Section SessionLifecycle.

Import Session SessionSetters SessionPaths StatisticsShape.
Local Open Scope Z_scope.

(** X1: when a stored session is given another start time and is
    saved, the start time is the new one and the window is
    [startTime, startTime + attendanceWindowMinutes] of the new start
    time. *)
Theorem save_after_startTime_change (d : t) (v : Z) :
  isNew d = false ->
  v <> startTime (fields d) ->
  startTime (fields (save (set_startTime v d))) = v /\
  attendanceWindow (fields (save (set_startTime v d)))
  = {| w_start := v;
       w_end := v + attendanceWindowMinutes (settings (fields d)) * 60 * 1000 |} /\
  attendanceWindow (fields (save (set_startTime v d)))
  = derived_window (save (set_startTime v d)).
Proof.
  intros _ Hv.
  assert (M : In "startTime" (modified (set_startTime v d))).
  { unfold set_startTime, assign. cbn [modified].
    destruct (existsb (String.eqb "startTime") (modified d)) eqn:E.
    - apply existsb_exists in E. destruct E as (x & Hx & Ex).
      apply String.eqb_eq in Ex. subst x. exact Hx.
    - replace (negb (v =? startTime (fields d))) with true
        by (symmetry; apply negb_true_iff, Z.eqb_neq, Hv).
      rewrite orb_true_r. left. reflexivity. }
  pose proof (save_derives_window _ (or_intror M)) as W.
  destruct (pre_save_frame (set_startTime v d)) as (_ & Ht & _ & Hg & _).
  assert (T : startTime (fields (save (set_startTime v d))) = v).
  { rewrite fields_save, Ht. by_setters. reflexivity. }
  assert (G : settings (fields (save (set_startTime v d)))
              = settings (fields d)).
  { rewrite fields_save, Hg. by_setters. reflexivity. }
  split; [exact T |]. rewrite W. unfold derived_window.
  rewrite T, G. by_setters. split; reflexivity.
Qed.

(** X1 at work: the stored sample session, moved by one day. *)
Lemma save_after_startTime_change_of_sample :
  startTime (fields (save (set_startTime (Samples.t0 + 86400000)
                             (Samples.stored scheduled))))
  = Samples.t0 + 86400000 /\
  attendanceWindow (fields (save (set_startTime (Samples.t0 + 86400000)
                                    (Samples.stored scheduled))))
  = {| w_start := Samples.t0 + 86400000;
       w_end := Samples.t0 + 86400000 + 300000 |}.
Proof.
  destruct (save_after_startTime_change (Samples.stored scheduled)
              (Samples.t0 + 86400000) eq_refl ltac:(discriminate))
    as (T & W & _).
  split; [exact T | exact W].
Defined.

(** X2: saving a saved document again changes nothing. *)
Theorem save_idempotent (d : t) : save (save d) = save d.
Proof.
  unfold save at 1. rewrite (pre_save_quiet (save d) (quiet_save d)).
  reflexivity.
Qed.

Lemma status_endSession (d : t) (now : Z) :
  status (fields (endSession d now)) = completed.
Proof.
  unfold endSession. rewrite fields_save.
  destruct (pre_save_frame (set_endTime now (set_status completed d)))
    as (H & _). rewrite H. by_setters. reflexivity.
Qed.

Lemma status_cancelSession (d : t) :
  status (fields (cancelSession d)) = cancelled.
Proof.
  unfold cancelSession. rewrite fields_save.
  destruct (pre_save_frame (set_status cancelled d)) as (H & _).
  rewrite H. by_setters. reflexivity.
Qed.

Lemma startSession_invariant (d : t) (now : Z) :
  attendanceWindow (fields (startSession d now))
  = derived_window (startSession d now).
Proof.
  destruct (startSession_fields d now) as (_ & Ht & Hw & _ & Hg & _).
  unfold derived_window. rewrite Hw, Ht, Hg. reflexivity.
Qed.

(** Every call keeps the invariant of the window. *)
Lemma call_keeps_invariant (d : t) (c : Call) :
  attendanceWindow (fields d) = derived_window d ->
  attendanceWindow (fields (call d c)) = derived_window (call d c).
Proof.
  intros H. destruct c as [now | now | | coll]; cbn [call].
  - apply startSession_invariant.
  - unfold endSession. apply save_keeps_invariant.
    unfold derived_window. by_setters. exact H.
  - unfold cancelSession. apply save_keeps_invariant.
    unfold derived_window. by_setters. exact H.
  - apply updateStatistics_frame. exact H.
Qed.

Lemma calls_keep_invariant (cs : list Call) (d : t) :
  attendanceWindow (fields d) = derived_window d ->
  attendanceWindow (fields (calls d cs)) = derived_window (calls d cs).
Proof.
  revert d. induction cs as [| c cs IH]; intros d H; cbn.
  - exact H.
  - apply IH, call_keeps_invariant, H.
Qed.

(** X3: once a session was started, its window is
    [startTime, startTime + attendanceWindowMinutes] after every
    sequence of start, end, cancel and statistics calls. *)
Theorem window_invariant_after_start (d : t) (now : Z) (cs : list Call) :
  attendanceWindow (fields (calls (startSession d now) cs))
  = derived_window (calls (startSession d now) cs).
Proof. apply calls_keep_invariant, startSession_invariant. Qed.

(** A call other than a start leaves a session that is not active
    not active. *)
Lemma call_keeps_inactive (d : t) (c : Call) :
  not_start c = true ->
  status (fields d) <> active -> status (fields (call d c)) <> active.
Proof.
  intros N H. destruct c as [now | now | | coll]; cbn [call].
  - discriminate N.
  - rewrite status_endSession. discriminate.
  - rewrite status_cancelSession. discriminate.
  - destruct (updateStatistics_frame d coll) as (_ & -> & _). exact H.
Qed.

Lemma calls_keep_inactive (cs : list Call) (d : t) :
  forallb not_start cs = true ->
  status (fields d) <> active -> status (fields (calls d cs)) <> active.
Proof.
  revert d. induction cs as [| c cs IH]; intros d N H; cbn in *.
  - exact H.
  - apply andb_true_iff in N. destruct N as (N1 & N2).
    apply IH; [exact N2 |]. apply call_keeps_inactive; assumption.
Qed.

Lemma closed_when_inactive (d : t) (studentId : ObjectId) (t : Z) :
  status (fields d) <> active ->
  canMarkAttendance d studentId t
  = {| canMark := false; reason := Some "Attendance window is closed" |}.
Proof.
  intros H. unfold canMarkAttendance, isAttendanceWindowOpen.
  destruct (status (fields d)); try reflexivity. contradiction.
Qed.

(** X4: after [endSession] or [cancelSession], and whatever calls
    other than [startSession] follow, no student can mark attendance
    at any time, and the session is not among the active ones. *)
Theorem closed_after_end_or_cancel (d : t) (c : Call) (cs : list Call)
    (studentId : ObjectId) (t : Z) :
  (exists now, c = CallEnd now) \/ c = CallCancel ->
  forallb not_start cs = true ->
  canMarkAttendance (calls (call d c) cs) studentId t
  = {| canMark := false; reason := Some "Attendance window is closed" |} /\
  getActiveSessions [calls (call d c) cs] t = [].
Proof.
  intros Hc N.
  assert (H : status (fields (calls (call d c) cs)) <> active).
  { apply calls_keep_inactive; [exact N |].
    destruct Hc as [(now & ->) | ->]; cbn [call].
    - rewrite status_endSession. discriminate.
    - rewrite status_cancelSession. discriminate. }
  split; [apply closed_when_inactive, H |].
  unfold getActiveSessions. cbn [filter].
  destruct (status (fields (calls (call d c) cs))); try reflexivity.
  contradiction.
Qed.

(** X4 at work: the sample session, ended and then recounted, one
    minute after its start. *)
Lemma closed_after_end_of_sample :
  canMarkAttendance
    (calls (call (Samples.stored active) (CallEnd (Samples.t0 + 30000)))
           [CallUpdateStatistics Samples.five_records])
    Samples.student1 (Samples.t0 + 60000)
  = {| canMark := false; reason := Some "Attendance window is closed" |} /\
  getActiveSessions
    [calls (call (Samples.stored active) (CallEnd (Samples.t0 + 30000)))
           [CallUpdateStatistics Samples.five_records]]
    (Samples.t0 + 60000) = [].
Proof.
  apply (closed_after_end_or_cancel (Samples.stored active)
           (CallEnd (Samples.t0 + 30000))
           [CallUpdateStatistics Samples.five_records]).
  - left. exists (Samples.t0 + 30000). reflexivity.
  - reflexivity.
Defined.

(** X5: after [startSession] at [now] the window is open exactly from
    [now] to [now + attendanceWindowMinutes]; with a window length
    that is not negative, a student whose id is not in [attendance]
    may mark at once. *)
Theorem startSession_opens_window (d : t) (now : Z) :
  (forall t,
     isAttendanceWindowOpen (startSession d now) t
     = (now <=? t)
       && (t <=? now + attendanceWindowMinutes (settings (fields d)) * 60 * 1000)) /\
  (forall studentId,
     0 <= attendanceWindowMinutes (settings (fields d)) ->
     ~ In studentId (attendance (fields d)) ->
     canMarkAttendance (startSession d now) studentId now
     = {| canMark := true; reason := None |}).
Proof.
  destruct (startSession_fields d now) as (Hs & Ht & Hw & _ & Hg & Ha).
  assert (W : forall t,
     isAttendanceWindowOpen (startSession d now) t
     = (now <=? t)
       && (t <=? now + attendanceWindowMinutes (settings (fields d)) * 60 * 1000)).
  { intros t. unfold isAttendanceWindowOpen. rewrite Hs, Hw. reflexivity. }
  split; [exact W |].
  intros studentId M N. unfold canMarkAttendance. rewrite W.
  replace (now <=? now) with true by (symmetry; apply Z.leb_le; lia).
  replace (now <=? now + attendanceWindowMinutes (settings (fields d)) * 60 * 1000)
    with true by (symmetry; apply Z.leb_le; lia).
  cbn [andb negb]. rewrite Ha.
  destruct (includes (attendance (fields d)) studentId) eqn:E;
    [| reflexivity].
  apply includes_In in E. contradiction.
Qed.

(** X5 at work: the stored sample session, started two hours late. *)
Lemma startSession_opens_window_of_sample :
  isAttendanceWindowOpen
    (startSession (Samples.stored scheduled) (Samples.t0 + 7200000))
    (Samples.t0 + 7200000 + 300000) = true /\
  isAttendanceWindowOpen
    (startSession (Samples.stored scheduled) (Samples.t0 + 7200000))
    (Samples.t0 + 7200000 + 300001) = false /\
  canMarkAttendance
    (startSession (Samples.stored scheduled) (Samples.t0 + 7200000))
    Samples.student1 (Samples.t0 + 7200000)
  = {| canMark := true; reason := None |}.
Proof.
  split; [| split].
  - rewrite (proj1 (startSession_opens_window (Samples.stored scheduled)
                      (Samples.t0 + 7200000))).
    reflexivity.
  - rewrite (proj1 (startSession_opens_window (Samples.stored scheduled)
                      (Samples.t0 + 7200000))).
    reflexivity.
  - apply (proj2 (startSession_opens_window (Samples.stored scheduled)
                    (Samples.t0 + 7200000))).
    + cbn. lia.
    + intros [].
Defined.

(** X6: a session started after its scheduled end takes attendance
    (its window is open at the moment of the start) and is yet not
    among the active sessions, as [startSession] leaves [endTime]. *)
Theorem late_start_open_but_not_listed (d : t) (now : Z) :
  endTime (fields d) < now ->
  0 <= attendanceWindowMinutes (settings (fields d)) ->
  status (fields (startSession d now)) = active /\
  isAttendanceWindowOpen (startSession d now) now = true /\
  getActiveSessions [startSession d now] now = [].
Proof.
  intros He M.
  destruct (startSession_fields d now) as (Hs & Ht & Hw & Hend & _).
  split; [exact Hs | split].
  - unfold isAttendanceWindowOpen. rewrite Hs, Hw. cbn.
    apply andb_true_iff. split; apply Z.leb_le; lia.
  - unfold getActiveSessions. cbn [filter]. rewrite Hs, Ht, Hend.
    replace (endTime (fields d) >=? now) with false
      by (symmetry; rewrite Z.geb_leb; apply Z.leb_gt; exact He).
    rewrite andb_false_r. reflexivity.
Qed.

(** X6 at work: the stored sample session, started two hours after
    its start time and one hour after its end time. *)
Lemma late_start_of_sample :
  status (fields (startSession (Samples.stored scheduled)
                    (Samples.t0 + 7200000))) = active /\
  isAttendanceWindowOpen
    (startSession (Samples.stored scheduled) (Samples.t0 + 7200000))
    (Samples.t0 + 7200000) = true /\
  getActiveSessions
    [startSession (Samples.stored scheduled) (Samples.t0 + 7200000)]
    (Samples.t0 + 7200000) = [].
Proof.
  apply (late_start_open_but_not_listed (Samples.stored scheduled)
           (Samples.t0 + 7200000)).
  - reflexivity.
  - cbn. lia.
Defined.

End SessionLifecycle.

(** ** More on the statistics of a session *)

Section StatisticsExtras.

Import Session SessionSetters SessionPaths StatisticsShape.
Local Open Scope Z_scope.

(** The four statuses partition any list of records. *)
Lemma count_status_partition (docs : list Attendance.t) :
  Z.of_nat (List.length docs)
  = Attendance.count_status Attendance.present docs
    + Attendance.count_status Attendance.absent docs
    + Attendance.count_status Attendance.late docs
    + Attendance.count_status Attendance.excused docs.
Proof.
  unfold Attendance.count_status.
  induction docs as [| r docs IH]; [reflexivity |].
  cbn [filter List.length].
  destruct (Attendance.status r); cbn [Attendance.Status_eqb List.length]; lia.
Qed.

Lemma count_status_bounds (st : Attendance.Status) (docs : list Attendance.t) :
  0 <= Attendance.count_status st docs <= Z.of_nat (List.length docs).
Proof.
  unfold Attendance.count_status. split; [lia |].
  apply Nat2Z.inj_le. apply filter_length_le.
Qed.

(** X7: after [updateStatistics] the total is the number of the
    session's own records and the sum of the four counters, and no
    counter is negative or above the total. *)
Theorem updateStatistics_counters_partition (d : t) (coll : list Attendance.t) :
  totalStudents (statistics (fields (updateStatistics d coll)))
  = Z.of_nat (List.length (own_records d coll)) /\
  totalStudents (statistics (fields (updateStatistics d coll)))
  = presentCount (statistics (fields (updateStatistics d coll)))
    + absentCount (statistics (fields (updateStatistics d coll)))
    + lateCount (statistics (fields (updateStatistics d coll)))
    + excusedCount (statistics (fields (updateStatistics d coll))) /\
  0 <= presentCount (statistics (fields (updateStatistics d coll)))
    <= totalStudents (statistics (fields (updateStatistics d coll))) /\
  0 <= absentCount (statistics (fields (updateStatistics d coll))) /\
  0 <= lateCount (statistics (fields (updateStatistics d coll))) /\
  0 <= excusedCount (statistics (fields (updateStatistics d coll))).
Proof.
  rewrite updateStatistics_statistics. cbv zeta.
  cbn [totalStudents presentCount absentCount lateCount excusedCount].
  fold (own_records d coll).
  pose proof (count_status_partition (own_records d coll)).
  pose proof (count_status_bounds Attendance.present (own_records d coll)).
  pose proof (count_status_bounds Attendance.absent (own_records d coll)).
  pose proof (count_status_bounds Attendance.late (own_records d coll)).
  pose proof (count_status_bounds Attendance.excused (own_records d coll)).
  repeat split; lia.
Qed.

(** X8: recomputing the statistics again over the same collection
    gives the same document. *)
Theorem updateStatistics_idempotent (d : t) (coll : list Attendance.t) :
  updateStatistics (updateStatistics d coll) coll = updateStatistics d coll.
Proof.
  set (D := updateStatistics d coll).
  assert (QD : quiet D).
  { unfold D. destruct (updateStatistics_shape d coll) as (x & -> & _).
    apply quiet_save. }
  assert (ND : isNew D = false /\ modified D = []).
  { unfold D. destruct (updateStatistics_shape d coll) as (x & -> & _).
    split; reflexivity. }
  assert (ID : _id (fields D) = _id (fields d))
    by apply (updateStatistics_frame d coll).
  assert (SD : statistics (fields (updateStatistics D coll))
               = statistics (fields D)).
  { rewrite updateStatistics_statistics. cbv zeta. rewrite ID.
    unfold D. rewrite updateStatistics_statistics. cbv zeta.
    cbn [attendancePercentage].
    destruct (0 <? _); reflexivity. }
  destruct (updateStatistics_frame D coll)
    as (F1 & F2 & F3 & F4 & F5 & F6 & F7 & _).
  specialize (F7 QD).
  assert (FD : fields (updateStatistics D coll) = fields D).
  { apply Fields_ext; [repeat split; assumption | exact SD]. }
  destruct ND as (N1 & N2).
  apply t_ext; [exact FD | |].
  - rewrite N1. destruct (updateStatistics_shape D coll) as (x & -> & _).
    reflexivity.
  - rewrite N2. destruct (updateStatistics_shape D coll) as (x & -> & _).
    reflexivity.
Qed.

Lemma count_status_Permutation (st : Attendance.Status)
    (l l' : list Attendance.t) :
  Permutation l l' ->
  Attendance.count_status st l = Attendance.count_status st l'.
Proof.
  unfold Attendance.count_status. intros H. f_equal.
  induction H as [| x l l' _ IH | x y l | l l' l'' _ IH1 _ IH2].
  - reflexivity.
  - cbn [filter]. destruct (Attendance.Status_eqb _ st); cbn; congruence.
  - cbn [filter].
    destruct (Attendance.Status_eqb (Attendance.status x) st),
             (Attendance.Status_eqb (Attendance.status y) st); reflexivity.
  - congruence.
Qed.

(** X9: the document that [updateStatistics] saves depends on the
    collection only through the session's own records, and not on
    their order: two collections whose own records are permutations of
    each other give the same document. *)
Theorem updateStatistics_own_records_only (d : t)
    (coll coll' : list Attendance.t) :
  Permutation (own_records d coll) (own_records d coll') ->
  updateStatistics d coll = updateStatistics d coll'.
Proof.
  intros P. unfold updateStatistics. cbv zeta.
  fold (own_records d coll). fold (own_records d coll').
  destruct (group_by_status_counts (own_records d coll) Attendance.present)
    as (Hp & _ & Ht).
  destruct (group_by_status_counts (own_records d coll) Attendance.absent)
    as (Ha & _).
  destruct (group_by_status_counts (own_records d coll) Attendance.late)
    as (Hl & _).
  destruct (group_by_status_counts (own_records d coll) Attendance.excused)
    as (He & _).
  destruct (group_by_status_counts (own_records d coll') Attendance.present)
    as (Hp' & _ & Ht').
  destruct (group_by_status_counts (own_records d coll') Attendance.absent)
    as (Ha' & _).
  destruct (group_by_status_counts (own_records d coll') Attendance.late)
    as (Hl' & _).
  destruct (group_by_status_counts (own_records d coll') Attendance.excused)
    as (He' & _).
  unfold Attendance.total_of in Ht, Ht'.
  rewrite Ht, Hp, Ha, Hl, He, Ht', Hp', Ha', Hl', He'.
  rewrite (Permutation_length P).
  rewrite (count_status_Permutation Attendance.present _ _ P),
    (count_status_Permutation Attendance.absent _ _ P),
    (count_status_Permutation Attendance.late _ _ P),
    (count_status_Permutation Attendance.excused _ _ P).
  reflexivity.
Qed.

(** X9 at work: the five sample records reversed, with a record of
    another session among them. *)
Lemma updateStatistics_of_shuffled_sample :
  updateStatistics (Samples.stored active)
    (rev Samples.five_records
     ++ [{| Attendance._id := "b1";
            Attendance.classroom := "5f1c00000000000000000001";
            Attendance.student := Samples.student1;
            Attendance.teacher := "5f1d00000000000000000001";
            Attendance.session := "5f1a000000000000000000ff";
            Attendance.status := Attendance.present;
            Attendance.markedAt := Samples.t0;
            Attendance.location :=
              {| Attendance.latitude := None;
                 Attendance.longitude := None |} |}])
  = updateStatistics (Samples.stored active) Samples.five_records.
Proof.
  apply (updateStatistics_own_records_only (Samples.stored active)).
  cbn. apply Permutation_sym.
  change (Permutation Samples.five_records (rev Samples.five_records)).
  apply Permutation_rev.
Defined.

End StatisticsExtras.

(** ** The classroom summary *)

Section ClassroomSummary.

Import Attendance.
Local Open Scope Z_scope.

Lemma group_snoc (docs : list t) (d : t) :
  group_by_status_students (docs ++ [d])
  = bump_students (status d) (student d) (group_by_status_students docs).
Proof. unfold group_by_status_students. rewrite fold_left_app. reflexivity. Qed.

Lemma total_bump_students st who rows :
  fold_left (fun acc r => acc + s_count r) (bump_students st who rows) 0
  = fold_left (fun acc r => acc + s_count r) rows 0 + 1.
Proof.
  induction rows as [| r rows IH]; cbn.
  - reflexivity.
  - destruct (Status_eqb (s_id r) st); cbn.
    + rewrite fold_left_add_acc.
      rewrite (fold_left_add_acc _ rows (s_count r)). lia.
    + rewrite fold_left_add_acc, IH.
      rewrite (fold_left_add_acc _ rows (s_count r)). lia.
Qed.

Lemma sum_count_if_bump st st' who rows :
  sum_count_if st (bump_students st' who rows)
  = sum_count_if st rows + (if Status_eqb st' st then 1 else 0).
Proof.
  unfold sum_count_if. induction rows as [| r rows IH]; cbn.
  - reflexivity.
  - destruct (Status_eqb (s_id r) st') eqn:E; cbn.
    + apply Status_eqb_eq in E. subst st'.
      rewrite fold_left_add_acc.
      rewrite (fold_left_add_acc _ rows (if Status_eqb (s_id r) st then _ else _)).
      destruct (Status_eqb (s_id r) st); lia.
    + rewrite fold_left_add_acc. rewrite IH.
      rewrite (fold_left_add_acc _ rows (if Status_eqb (s_id r) st then _ else _)).
      lia.
Qed.

Lemma rows_of_bump st st' who rows :
  rows_of st (bump_students st' who rows)
  = if Status_eqb st' st
    then match rows_of st rows with
         | [] => [{| s_id := st; s_count := 1; s_students := [who] |}]
         | r :: rest =>
             {| s_id := st; s_count := s_count r + 1;
                s_students := addToSet who (s_students r) |} :: rest
         end
    else rows_of st rows.
Proof.
  unfold rows_of. induction rows as [| r rows IH]; cbn.
  - destruct (Status_eqb st' st) eqn:E; [| reflexivity].
    apply Status_eqb_eq in E. subst. reflexivity.
  - destruct (Status_eqb (s_id r) st') eqn:E; cbn.
    + apply Status_eqb_eq in E. subst st'.
      destruct (Status_eqb (s_id r) st) eqn:F.
      * apply Status_eqb_eq in F. subst st. reflexivity.
      * reflexivity.
    + destruct (Status_eqb (s_id r) st) eqn:F.
      * destruct (Status_eqb st' st) eqn:G.
        { apply Status_eqb_eq in F, G. subst. rewrite Status_eqb_refl in E. discriminate. }
        rewrite IH. reflexivity.
      * rewrite IH. reflexivity.
Qed.

Lemma sum_size_if_rows_of st rows :
  sum_size_if st rows
  = fold_left (fun acc r => acc + Z.of_nat (List.length (s_students r)))
              (rows_of st rows) 0.
Proof.
  unfold sum_size_if, rows_of. induction rows as [| r rows IH]; cbn.
  - reflexivity.
  - rewrite fold_left_add_acc, IH.
    destruct (Status_eqb (s_id r) st); cbn.
    + rewrite (fold_left_add_acc _ _ (Z.of_nat _)). lia.
    + lia.
Qed.

Lemma addToSet_In x l s : In s (addToSet x l) <-> In s l \/ s = x.
Proof.
  unfold addToSet. destruct (existsb (String.eqb x) l) eqn:E.
  - split; [tauto |]. intros [H | ->]; [exact H |].
    apply existsb_exists in E. destruct E as (y & Hy & Ey).
    apply String.eqb_eq in Ey. subst. exact Hy.
  - rewrite in_app_iff. cbn. split; intros [H | H]; auto.
    + destruct H as [<- | []]. auto.
Qed.

Lemma addToSet_NoDup x l : NoDup l -> NoDup (addToSet x l).
Proof.
  intros H. unfold addToSet. destruct (existsb (String.eqb x) l) eqn:E; [exact H |].
  apply NoDup_app; [exact H | repeat constructor; intros [] |].
  intros y Hy [Exy | []]. subst y.
  assert (existsb (String.eqb x) l = true); [| congruence].
  apply existsb_exists. exists x. split; [exact Hy | apply String.eqb_refl].
Qed.

Lemma students_of_snoc st docs d :
  students_of st (docs ++ [d])
  = (students_of st docs ++ (if Status_eqb (status d) st then [student d] else []))%list.
Proof.
  unfold students_of. rewrite filter_app, map_app. cbn.
  destruct (Status_eqb (status d) st); reflexivity.
Qed.

Lemma tracked_group st docs : tracked st docs (group_by_status_students docs).
Proof.
  induction docs as [| d docs IH] using rev_ind.
  - left. split; reflexivity.
  - rewrite group_snoc. unfold tracked.
    rewrite rows_of_bump, students_of_snoc.
    destruct (Status_eqb (status d) st) eqn:E.
    + right. destruct IH as [(R & S) | (r & R & N & M)]; rewrite R.
      * eexists. split; [reflexivity |]. cbn [s_students]. split.
        { repeat constructor. intros []. }
        rewrite S. cbn. tauto.
      * eexists. split; [reflexivity |]. cbn [s_students]. split.
        { apply addToSet_NoDup, N. }
        intros s. rewrite addToSet_In, in_app_iff, M. cbn. intuition.
    + rewrite app_nil_r. exact IH.
Qed.

Lemma count_status_snoc st docs d :
  count_status st (docs ++ [d])
  = count_status st docs + (if Status_eqb (status d) st then 1 else 0).
Proof.
  unfold count_status. rewrite filter_app, length_app. cbn [filter].
  destruct (Status_eqb (status d) st); cbn [List.length]; lia.
Qed.

Lemma group_students_counts docs st :
  sum_count_if st (group_by_status_students docs) = count_status st docs /\
  fold_left (fun acc r => acc + s_count r) (group_by_status_students docs) 0
  = Z.of_nat (List.length docs).
Proof.
  induction docs as [| d docs (IH1 & IH2)] using rev_ind.
  - split; reflexivity.
  - rewrite group_snoc, sum_count_if_bump, total_bump_students,
      count_status_snoc, length_app, IH1, IH2.
    cbn [List.length]. split; lia.
Qed.

Lemma group_students_unique docs st :
  sum_size_if st (group_by_status_students docs)
  = Z.of_nat (List.length (distinct_students st docs)).
Proof.
  rewrite sum_size_if_rows_of. unfold distinct_students.
  fold (students_of st docs).
  destruct (tracked_group st docs) as [(R & S) | (r & R & N & M)]; rewrite R.
  - rewrite S. reflexivity.
  - cbn [fold_left]. rewrite Z.add_0_l. f_equal. apply Permutation_length.
    apply NoDup_Permutation; [exact N | apply NoDup_nodup |].
    intros s. rewrite nodup_In. apply M.
Qed.

Lemma group_students_nil docs :
  group_by_status_students docs = [] <-> docs = [].
Proof.
  split.
  - intros H. destruct (group_students_counts docs present) as (_ & T).
    rewrite H in T. destruct docs; [reflexivity | discriminate T].
  - intros ->. reflexivity.
Qed.

(** The rows of the classroom summary, by cases on the matched records. *)
Lemma getClassroomSummary_cases (coll : list t) (classroomId : ObjectId)
    (sessionId : option ObjectId) :
  getClassroomSummary coll classroomId sessionId
  = match filter (matches_classroom classroomId sessionId) coll with
    | [] => []
    | _ :: _ =>
        [classroom_summary_of
           (filter (matches_classroom classroomId sessionId) coll)]
    end.
Proof.
  unfold getClassroomSummary.
  set (m := filter _ coll).
  destruct (group_by_status_students m) as [| g gs] eqn:G.
  - apply group_students_nil in G. rewrite G. reflexivity.
  - assert (N : m <> []).
    { intros E. apply group_students_nil in E. congruence. }
    destruct m as [| x m']; [contradiction |].
    set (mm := x :: m') in *. unfold group_all_students. rewrite <- G.
    unfold classroom_summary_of.
    destruct (group_students_counts mm present) as (-> & ->).
    destruct (group_students_counts mm absent) as (-> & _).
    destruct (group_students_counts mm late) as (-> & _).
    destruct (group_students_counts mm excused) as (-> & _).
    rewrite group_students_unique. reflexivity.
Qed.

Lemma distinct_le_count st docs :
  Z.of_nat (List.length (distinct_students st docs)) <= count_status st docs.
Proof.
  unfold distinct_students, count_status. apply Nat2Z.inj_le.
  rewrite <- (length_map student (filter _ docs)).
  apply NoDup_incl_length; [apply NoDup_nodup |].
  intros s. rewrite nodup_In. tauto.
Qed.

(** X10: the classroom summary has no row when no record matches and
    one row otherwise; the row holds the number of matching records,
    the four counters, and as [uniqueStudents] the number of distinct
    students with a present record; the counters add up to the total,
    and [uniqueStudents] is at most [present]. *)
Theorem getClassroomSummary_rows (coll : list t) (classroomId : ObjectId)
    (sessionId : option ObjectId) :
  let matched := filter (matches_classroom classroomId sessionId) coll in
  (matched = [] -> getClassroomSummary coll classroomId sessionId = []) /\
  (matched <> [] ->
   getClassroomSummary coll classroomId sessionId
   = [classroom_summary_of matched]) /\
  (forall row,
     In row (getClassroomSummary coll classroomId sessionId) ->
     cs_total row
     = cs_present row + cs_absent row + cs_late row + cs_excused row /\
     0 <= cs_uniqueStudents row <= cs_present row).
Proof.
  cbv zeta. rewrite getClassroomSummary_cases.
  destruct (filter (matches_classroom classroomId sessionId) coll)
    as [| x m] eqn:E.
  - split; [reflexivity | split; [contradiction |]]. intros row [].
  - split; [discriminate | split; [reflexivity |]].
    intros row [<- | []]. unfold classroom_summary_of.
    cbn [cs_total cs_present cs_absent cs_late cs_excused cs_uniqueStudents].
    split; [apply count_status_partition |].
    split; [lia | apply distinct_le_count].
Qed.

(** X10 at work: the five sample records of one student, three of them
    present, and a classroom without records. *)
Lemma getClassroomSummary_of_sample :
  getClassroomSummary Samples.five_records "5f1c00000000000000000001" None
  = [{| cs_total := 5; cs_present := 3; cs_absent := 1; cs_late := 1;
        cs_excused := 0; cs_uniqueStudents := 1 |}] /\
  getClassroomSummary Samples.five_records "5f1c000000000000000000ff" None
  = [].
Proof.
  split.
  - rewrite (proj1 (proj2 (getClassroomSummary_rows Samples.five_records
                             "5f1c00000000000000000001" None))).
    + reflexivity.
    + discriminate.
  - apply (proj1 (getClassroomSummary_rows Samples.five_records
                    "5f1c000000000000000000ff" None)).
    reflexivity.
Defined.

End ClassroomSummary.

(** ** More on the summary of a student *)

Section StudentSummaryExtras.

Import Attendance.
Local Open Scope Z_scope.

(** The rows of the student summary, by cases on the matched records. *)
Lemma getStudentSummary_cases (coll : list t) (studentId : ObjectId)
    (classroomId : option ObjectId) (startDate endDate : option Z) :
  getStudentSummary coll studentId classroomId startDate endDate
  = Returns
      match filter (matches (matchStage studentId classroomId startDate endDate))
                   coll with
      | [] => []
      | _ :: _ =>
          [summary_of
             (filter (matches (matchStage studentId classroomId startDate endDate))
                     coll)]
      end.
Proof.
  unfold getStudentSummary. cbv zeta.
  set (matched := filter _ coll).
  destruct (group_by_status matched) as [| g gs] eqn:G.
  - apply group_by_status_nil in G. rewrite G. reflexivity.
  - assert (N : matched <> []).
    { intros E. apply group_by_status_nil in E. congruence. }
    destruct matched as [| x m']; [contradiction |].
    set (mm := x :: m') in *. unfold group_all. rewrite <- G.
    destruct (group_by_status_counts mm present) as (_ & -> & ->).
    destruct (group_by_status_counts mm absent) as (_ & -> & _).
    destruct (group_by_status_counts mm late) as (_ & -> & _).
    destruct (group_by_status_counts mm excused) as (_ & -> & _).
    cbn [addFields]. unfold addFields1, divide.
    cbn [t_total t_present t_absent t_late t_excused].
    replace (Z.of_nat (List.length mm) =? 0) with false
      by (symmetry; apply Z.eqb_neq; unfold mm; cbn; lia).
    reflexivity.
Qed.

(** X11: the student summary always returns, the division never
    meets a zero total; in a row it returns the total is positive and
    is the sum of the four counters, none of which is negative. *)
Theorem getStudentSummary_row_partition (coll : list t) (studentId : ObjectId)
    (classroomId : option ObjectId) (startDate endDate : option Z) :
  (exists rows,
     getStudentSummary coll studentId classroomId startDate endDate
     = Returns rows) /\
  (forall rows r,
     getStudentSummary coll studentId classroomId startDate endDate
     = Returns rows ->
     In r rows ->
     0 < total r /\
     total r = present_ r + absent_ r + late_ r + excused_ r /\
     0 <= present_ r /\ 0 <= absent_ r /\ 0 <= late_ r /\ 0 <= excused_ r).
Proof.
  rewrite getStudentSummary_cases. split; [eexists; reflexivity |].
  intros rows r E. injection E as <-.
  destruct (filter _ coll) as [| x m] eqn:F; [intros [] |].
  intros [<- | []]. unfold summary_of.
  cbn [total present_ absent_ late_ excused_].
  pose proof (count_status_partition (x :: m)) as P.
  pose proof (count_status_bounds present (x :: m)).
  pose proof (count_status_bounds absent (x :: m)).
  pose proof (count_status_bounds late (x :: m)).
  pose proof (count_status_bounds excused (x :: m)).
  repeat split; lia.
Qed.

(** X12: the student summary depends on the collection only through
    the records that match, and not on their order. *)
Theorem getStudentSummary_matching_records_only (coll coll' : list t)
    (studentId : ObjectId) (classroomId : option ObjectId)
    (startDate endDate : option Z) :
  Permutation
    (filter (matches (matchStage studentId classroomId startDate endDate)) coll)
    (filter (matches (matchStage studentId classroomId startDate endDate)) coll') ->
  getStudentSummary coll studentId classroomId startDate endDate
  = getStudentSummary coll' studentId classroomId startDate endDate.
Proof.
  intros P. rewrite !getStudentSummary_cases.
  set (m := filter _ coll) in *. set (m' := filter _ coll') in *.
  assert (S : summary_of m = summary_of m').
  { unfold summary_of.
    rewrite (Permutation_length P),
      (count_status_Permutation present _ _ P),
      (count_status_Permutation absent _ _ P),
      (count_status_Permutation late _ _ P),
      (count_status_Permutation excused _ _ P).
    reflexivity. }
  destruct m as [| x m1], m' as [| y m1'].
  - reflexivity.
  - apply Permutation_nil in P. discriminate P.
  - apply Permutation_sym, Permutation_nil in P. discriminate P.
  - rewrite S. reflexivity.
Qed.

(** X12 at work: the five sample records reversed, behind a record of
    another student. *)
Lemma getStudentSummary_of_shuffled_sample :
  getStudentSummary
    ({| _id := "b2";
        classroom := "5f1c00000000000000000001";
        student := "5f1b000000000000000000ff";
        teacher := "5f1d00000000000000000001";
        session := "5f1a00000000000000000001";
        status := present;
        markedAt := Samples.t0;
        location := {| latitude := None; longitude := None |} |}
     :: rev Samples.five_records)
    Samples.student1 None None None
  = getStudentSummary Samples.five_records Samples.student1 None None None.
Proof.
  apply (getStudentSummary_matching_records_only _ Samples.five_records).
  cbn. apply Permutation_sym.
  change (Permutation Samples.five_records (rev Samples.five_records)).
  apply Permutation_rev.
Defined.

End StudentSummaryExtras.

(** ** More on distance and geofence *)

Section GeofenceExtras.

Import Attendance.
Local Open Scope R_scope.

Lemma PI_bounds : 3.1415 < PI < 3.1421.
Proof.
  pose proof (PI_2_3_7_ineq 1) as H.
  unfold sum_f_R0, tg_alt, PI_2_3_7_tg, Ratan_seq in H.
  simpl in H. lra.
Qed.

Lemma half_angle (x : R) : 0 <= x <= PI / 2 ->
  atan2 (sqrt (sin x * sin x)) (sqrt (1 - sin x * sin x)) = x.
Proof.
  intros [H0 H1]. pose proof PI_RGT_0 as P.
  assert (S : 0 <= sin x) by (apply sin_ge_0; lra).
  assert (C : 0 <= cos x) by (apply cos_ge_0; lra).
  rewrite (sqrt_square _ S).
  replace (1 - sin x * sin x) with (cos x * cos x)
    by (pose proof (sin2_cos2 x) as E; unfold Rsqr in E; lra).
  rewrite (sqrt_square _ C).
  unfold atan2.
  destruct (Rlt_dec 0 (cos x)) as [Pc | Nc].
  - assert (x < PI / 2).
    { destruct (Req_dec x (PI / 2)) as [-> | N]; [| lra].
      rewrite cos_PI2 in Pc. lra. }
    change (sin x / cos x) with (tan x). apply atan_tan. lra.
  - assert (Z : cos x = 0) by lra.
    assert (E : x = PI / 2).
    { destruct (Req_dec x (PI / 2)) as [E | N]; [exact E |].
      assert (0 < cos x) by (apply cos_gt_0; lra). lra. }
    destruct (Rlt_dec (cos x) 0) as [L | _]; [lra |].
    rewrite E, sin_PI2.
    destruct (Rlt_dec 0 1) as [_ | N]; lra.
Qed.

(** X13: the distance from a point to itself is 0. *)
Theorem calculateDistance_to_itself (lat lon : R) :
  calculateDistance lat lon lat lon = 0.
Proof. apply calculateDistance_same. Qed.

(** X15: along a meridian, and along the equator, the distance of two
    points at most 180 degrees apart is the length of the arc between
    them, 6371000 times the angle in radians. *)
Theorem calculateDistance_is_arc_length (a b : R) :
  0 <= b - a <= 180 ->
  (forall lon, calculateDistance a lon b lon = 6371000 * ((b - a) * PI / 180)) /\
  calculateDistance 0 a 0 b = 6371000 * ((b - a) * PI / 180).
Proof.
  intros H. pose proof PI_RGT_0 as P.
  assert (X : 0 <= (b - a) * PI / 180 / 2 <= PI / 2) by (split; nra).
  split.
  - intros lon. unfold calculateDistance. cbv zeta.
    replace ((lon - lon) * PI / 180 / 2) with 0 by (unfold Rdiv; ring).
    rewrite sin_0.
    replace (sin ((b - a) * PI / 180 / 2) * sin ((b - a) * PI / 180 / 2) +
             cos (a * PI / 180) * cos (b * PI / 180) * 0 * 0)
      with (sin ((b - a) * PI / 180 / 2) * sin ((b - a) * PI / 180 / 2))
      by ring.
    rewrite (half_angle _ X). field.
  - unfold calculateDistance. cbv zeta.
    replace ((0 - 0) * PI / 180 / 2) with 0 by (unfold Rdiv; ring).
    replace (0 * PI / 180) with 0 by (unfold Rdiv; ring).
    rewrite sin_0, cos_0.
    replace (0 * 0 + 1 * 1 * sin ((b - a) * PI / 180 / 2)
                     * sin ((b - a) * PI / 180 / 2))
      with (sin ((b - a) * PI / 180 / 2) * sin ((b - a) * PI / 180 / 2))
      by ring.
    rewrite (half_angle _ X). field.
Qed.

(** X15 at work: from (0, 0) to (0, 1) the distance is 111195 metres,
    within 50 metres. *)
Lemma calculateDistance_of_one_degree :
  calculateDistance 0 0 0 1 = 6371000 * ((1 - 0) * PI / 180) /\
  111195 - 50 <= calculateDistance 0 0 0 1 <= 111195 + 50.
Proof.
  pose proof (proj2 (calculateDistance_is_arc_length 0 1
                       ltac:(split; lra))) as E.
  split; [exact E |]. rewrite E. pose proof PI_bounds. split; lra.
Defined.

Lemma falsy_nonzero (x : R) : x <> 0 -> falsy x = false.
Proof.
  intros H. unfold falsy. destruct (Req_dec_T x 0); [contradiction | reflexivity].
Qed.

(** A record with two coordinates that are not zero, taken at the
    centre, is within every radius that is not negative. *)
Lemma inside_at_centre (d : t) (lat lon radius : R) :
  latitude (location d) = Some lat -> longitude (location d) = Some lon ->
  lat <> 0 -> lon <> 0 -> 0 <= radius ->
  isWithinGeofence d (Some {| c_latitude := lat; c_longitude := lon |}) radius
  = Returns true.
Proof.
  intros Hlat Hlon Nlat Nlon Hr. unfold isWithinGeofence.
  rewrite Hlat, Hlon, (falsy_nonzero _ Nlat), (falsy_nonzero _ Nlon).
  cbn [orb c_latitude c_longitude]. rewrite calculateDistance_same.
  destruct (Rle_dec 0 radius); [reflexivity | contradiction].
Qed.

(** X16: a record that is within a fence is within every fence of the
    same centre and a larger radius. *)
Theorem isWithinGeofence_monotone (d : t)
    (classroomLocation : option Coordinates) (radius radius' : R) :
  radius <= radius' ->
  isWithinGeofence d classroomLocation radius = Returns true ->
  isWithinGeofence d classroomLocation radius' = Returns true.
Proof.
  intros Hr. unfold isWithinGeofence.
  destruct (latitude (location d)) as [lat |]; [| discriminate].
  destruct (longitude (location d)) as [lon |]; [| discriminate].
  destruct (falsy lat || falsy lon); [discriminate |].
  destruct classroomLocation as [c |]; [| discriminate].
  cbv zeta.
  destruct (Rle_dec _ radius) as [L | N]; [| discriminate].
  intros _. destruct (Rle_dec _ radius') as [L' | N']; [reflexivity |].
  exfalso. apply N'. lra.
Qed.

(** X16 at work: the sample record at (12, 12), within 50 and hence
    within 100 metres of a centre at (12, 12). *)
Lemma isWithinGeofence_monotone_of_sample :
  isWithinGeofence Samples.first_mark
    (Some {| c_latitude := 12; c_longitude := 12 |}) 100 = Returns true.
Proof.
  apply (isWithinGeofence_monotone Samples.first_mark
           (Some {| c_latitude := 12; c_longitude := 12 |}) 50 100).
  - lra.
  - apply inside_at_centre; try reflexivity; lra.
Defined.

End GeofenceExtras.

(** ** The middleware *)

Section Middleware.

Import Auth.
Local Open Scope Z_scope.

Lemma role_listed (roles : list string) (r : string) :
  existsb (String.eqb r) roles = true <-> In r roles.
Proof.
  rewrite existsb_exists. split.
  - intros (x & Hx & E). apply String.eqb_eq in E. subst. exact Hx.
  - intros H. exists r. split; [exact H | apply String.eqb_refl].
Qed.

(** Who passes [requireRole]. *)
Lemma requireRole_passes (roles : list string) (user : option User) :
  requireRole roles user = Next tt <->
  exists u, user = Some u /\ In (role u) roles.
Proof.
  unfold requireRole. destruct user as [u |].
  - destruct (existsb (String.eqb (role u)) roles) eqn:E; cbn [negb].
    + split; [| reflexivity]. intros _. exists u. split; [reflexivity |].
      apply role_listed, E.
    + split; [discriminate |]. intros (u' & H & I). injection H as <-.
      apply role_listed in I. congruence.
  - split; [discriminate |]. intros (u & H & _). discriminate H.
Qed.

(** X17: a user who passes [requireRole] for some roles passes it for
    every list that has those roles; so whoever passes [requireAdmin]
    passes [requireTeacherOrAdmin], and whoever passes that passes
    [requireAnyRole]. *)
Theorem role_hierarchy :
  (forall roles roles' user,
     (forall r, In r roles -> In r roles') ->
     requireRole roles user = Next tt -> requireRole roles' user = Next tt) /\
  (forall user,
     requireAdmin user = Next tt -> requireTeacherOrAdmin user = Next tt) /\
  (forall user,
     requireTeacherOrAdmin user = Next tt -> requireAnyRole user = Next tt).
Proof.
  assert (M : forall roles roles' user,
     (forall r, In r roles -> In r roles') ->
     requireRole roles user = Next tt -> requireRole roles' user = Next tt).
  { intros roles roles' user I H. apply requireRole_passes in H.
    destruct H as (u & Hu & Hr). apply requireRole_passes.
    exists u. split; [exact Hu | apply I, Hr]. }
  split; [exact M | split]; intros user; apply M; cbn; tauto.
Qed.

(** X18: [requireClassroomAccess] lets a request through, with the
    classroom attached, exactly when the classroom exists and the user
    is an admin, or the teacher of the classroom, or a student enrolled
    in it; a classroom that does not exist is answered 404 whoever
    asks; and a request without user for a classroom that exists is
    answered 500. *)
Theorem classroom_access_decision (findById : ObjectId -> Found Classroom)
    (user : option User) (classroomId : ObjectId) :
  (forall c,
     requireClassroomAccess findById user classroomId = Next c <->
     findById classroomId = Doc c /\
     exists u, user = Some u /\
       (role u = "admin"
        \/ (role u = "teacher" /\ teacher c = u_id u)
        \/ (role u = "student" /\ In (u_id u) (students c)))) /\
  (findById classroomId = Null ->
   requireClassroomAccess findById user classroomId
   = Respond 404 (body "Classroom not found" "CLASSROOM_NOT_FOUND")) /\
  (forall c,
     findById classroomId = Doc c -> user = None ->
     requireClassroomAccess findById user classroomId
     = Respond 500
         (body "Error checking classroom access" "CLASSROOM_ACCESS_ERROR")).
Proof.
  unfold requireClassroomAccess. cbv zeta.
  split; [| split].
  - intros c. destruct (findById classroomId) as [c' | | name].
    + destruct user as [u |].
      * destruct (String.eqb (role u) "admin") eqn:Ea.
        { apply String.eqb_eq in Ea. split.
          - intros H. injection H as <-. split; [reflexivity |].
            exists u. split; [reflexivity | left; exact Ea].
          - intros (H & _). injection H as <-. reflexivity. }
        apply String.eqb_neq in Ea.
        destruct (String.eqb (role u) "teacher") eqn:Et.
        { apply String.eqb_eq in Et. cbn [andb].
          assert (Ns : String.eqb (role u) "student" = false)
            by (rewrite Et; reflexivity).
          rewrite Ns. cbn [andb].
          destruct (String.eqb (teacher c') (u_id u)) eqn:Eo.
          - apply String.eqb_eq in Eo. split.
            + intros H. injection H as <-. split; [reflexivity |].
              exists u. split; [reflexivity | right; left; split; assumption].
            + intros (H & _). injection H as <-. reflexivity.
          - apply String.eqb_neq in Eo. split; [discriminate |].
            intros (H & u' & Hu & Hc). injection H as <-. injection Hu as <-.
            destruct Hc as [Hc | [(_ & Hc) | (Hc & _)]]; try contradiction.
            rewrite Et in Hc. discriminate Hc. }
        cbn [andb]. apply String.eqb_neq in Et.
        destruct (String.eqb (role u) "student") eqn:Es.
        { apply String.eqb_eq in Es. cbn [andb].
          destruct (existsb (String.eqb (u_id u)) (students c')) eqn:Ei.
          - apply role_listed in Ei. split.
            + intros H. injection H as <-. split; [reflexivity |].
              exists u. split; [reflexivity | right; right; split; assumption].
            + intros (H & _). injection H as <-. reflexivity.
          - split; [discriminate |].
            intros (H & u' & Hu & Hc). injection H as <-. injection Hu as <-.
            destruct Hc as [Hc | [(Hc & _) | (_ & Hc)]]; try contradiction.
            apply role_listed in Hc. congruence. }
        cbn [andb]. apply String.eqb_neq in Es. split; [discriminate |].
        intros (_ & u' & Hu & Hc). injection Hu as <-.
        destruct Hc as [Hc | [(Hc & _) | (Hc & _)]]; contradiction.
      * split; [discriminate |]. intros (_ & u & Hu & _). discriminate Hu.
    + split; [discriminate |]. intros (H & _). discriminate H.
    + split; [discriminate |]. intros (H & _). discriminate H.
  - intros ->. reflexivity.
  - intros c -> ->. reflexivity.
Qed.

Lemma split_space_scheme (scheme rest : string) :
  no_space scheme = true ->
  split_space (scheme ++ String " "%char rest) = scheme :: split_space rest.
Proof.
  induction scheme as [| c s IH]; intros H.
  - reflexivity.
  - cbn [no_space] in H. apply andb_true_iff in H. destruct H as (Hc & Hs).
    cbn [append split_space]. apply negb_true_iff in Hc. rewrite Hc.
    rewrite (IH Hs). reflexivity.
Qed.

Lemma token_of_scheme (scheme rest : string) :
  no_space scheme = true ->
  token_of (Some (scheme ++ String " "%char rest))
  = match split_space rest with
    | piece :: _ => if String.eqb piece "" then None else Some piece
    | [] => None
    end.
Proof.
  intros H. unfold token_of. rewrite (split_space_scheme scheme rest H).
  replace (String.eqb (scheme ++ String " "%char rest) "") with false
    by (destruct scheme; reflexivity).
  cbn [nth_error]. destruct (split_space rest); reflexivity.
Qed.

(** X22: the word before the token is not checked: a header with any
    word without spaces in the place of "Bearer" is answered as the
    header with "Bearer" is. *)
Theorem scheme_is_not_checked (verify : string -> Verified)
    (findById : string -> Found User) (scheme rest : string) :
  no_space scheme = true ->
  authenticateToken verify findById (Some (scheme ++ " " ++ rest))
  = authenticateToken verify findById (Some ("Bearer " ++ rest)).
Proof.
  intros H. unfold authenticateToken.
  change (scheme ++ " " ++ rest) with (scheme ++ String " "%char rest).
  change ("Bearer " ++ rest) with ("Bearer" ++ String " "%char rest).
  rewrite (token_of_scheme scheme rest H).
  rewrite (token_of_scheme "Bearer" rest eq_refl). reflexivity.
Qed.

(** X23: [optionalAuth] always calls [next()], and attaches a user
    exactly when [authenticateToken] lets the same header through,
    the same user; and a user that [authenticateToken] lets through
    is active and not locked. *)
Theorem optionalAuth_agrees (verify : string -> Verified)
    (findById : string -> Found User) (authHeader : option string) :
  optionalAuth verify findById authHeader
  = Next match authenticateToken verify findById authHeader with
         | Next user => Some user
         | Respond _ _ => None
         end /\
  (forall user,
     authenticateToken verify findById authHeader = Next user ->
     isActive user = true /\ isLocked user = false).
Proof.
  unfold optionalAuth, authenticateToken, auth_failure.
  destruct (token_of authHeader) as [token |]; [| split; [reflexivity | discriminate]].
  destruct (verify token) as [userId | name].
  - destruct (findById userId) as [user | | name].
    + destruct (isActive user) eqn:Ea, (isLocked user) eqn:El; cbn;
        (split; [reflexivity |]); intros u H; try discriminate H.
      injection H as <-. split; assumption.
    + split; [reflexivity | discriminate].
    + destruct (String.eqb name "JsonWebTokenError");
        [| destruct (String.eqb name "TokenExpiredError")];
        (split; [reflexivity | discriminate]).
  - destruct (String.eqb name "JsonWebTokenError");
      [| destruct (String.eqb name "TokenExpiredError")];
      (split; [reflexivity | discriminate]).
Qed.

End Middleware.

(** X17 at work: the sample admin passes [requireAnyRole]. *)
Lemma role_hierarchy_of_admin :
  Auth.requireAnyRole (Some Samples.admin) = Auth.Next tt.
Proof.
  apply (proj2 (proj2 role_hierarchy)).
  apply (proj1 (proj2 role_hierarchy)). reflexivity.
Defined.

(** X18 at work: the student enrolled in the sample classroom gets in,
    and an admin asking for a classroom that does not exist gets 404. *)
Lemma classroom_access_of_sample :
  Auth.requireClassroomAccess Samples.classrooms (Some Samples.student1_user)
    "5f1c00000000000000000001" = Auth.Next Samples.classroom1 /\
  Auth.requireClassroomAccess Samples.classrooms (Some Samples.admin)
    "5f1c000000000000000000ff"
  = Auth.Respond 404 (Auth.body "Classroom not found" "CLASSROOM_NOT_FOUND").
Proof.
  split.
  - apply (proj1 (classroom_access_decision Samples.classrooms
                    (Some Samples.student1_user) "5f1c00000000000000000001")).
    split; [reflexivity |].
    exists Samples.student1_user. split; [reflexivity |].
    right. right. split; [reflexivity | left; reflexivity].
  - apply (proj1 (proj2 (classroom_access_decision Samples.classrooms
                           (Some Samples.admin) "5f1c000000000000000000ff"))).
    reflexivity.
Defined.

(** X22 at work: the sample token after the word "Basic". *)
Lemma scheme_is_not_checked_of_sample :
  Auth.authenticateToken Samples.verify1 Samples.users (Some "Basic t0k3n")
  = Auth.authenticateToken Samples.verify1 Samples.users (Some "Bearer t0k3n").
Proof.
  apply (scheme_is_not_checked Samples.verify1 Samples.users "Basic" "t0k3n").
  reflexivity.
Defined.

(** ** The rate limiter *)

Section RateLimit.

Import Auth.
Local Open Scope Z_scope.

Variables maxAttempts windowMs : Z.

Lemma get_set_same (u : string) (times : list Z) (a : Attempts) :
  get_or_empty (set u times a) u = times.
Proof. unfold get_or_empty, set. rewrite String.eqb_refl. reflexivity. Qed.

Lemma get_set_other (u v : string) (times : list Z) (a : Attempts) :
  u <> v -> get_or_empty (set v times a) u = get_or_empty a u.
Proof.
  intros N. unfold get_or_empty, set.
  destruct (String.eqb u v) eqn:E; [| reflexivity].
  apply String.eqb_eq in E. contradiction.
Qed.

(** The reply and the map after one request of a user, by cases. *)
Lemma rateLimitByUser_user (a : Attempts) (u : string) (now : Z) :
  u <> "" ->
  rateLimitByUser maxAttempts windowMs a (Some u) now =
  if Z.of_nat (List.length (valid_at windowMs now (get_or_empty a u)))
     <? maxAttempts
  then (set u (valid_at windowMs now (get_or_empty a u) ++ [now]) a, Next tt)
  else (a, snd (rateLimitByUser maxAttempts windowMs a (Some u) now)).
Proof.
  intros N. unfold rateLimitByUser.
  replace (String.eqb u "") with false
    by (symmetry; apply String.eqb_neq; exact N).
  cbv zeta. rewrite Z.geb_leb.
  destruct (Z.leb_spec maxAttempts
              (Z.of_nat (List.length (valid_at windowMs now (get_or_empty a u)))))
    as [H | H].
  - replace (_ <? maxAttempts) with false by (symmetry; apply Z.ltb_ge; lia).
    reflexivity.
  - replace (_ <? maxAttempts) with true by (symmetry; apply Z.ltb_lt; lia).
    reflexivity.
Qed.

Lemma bounded_step (a : Attempts) (userId : option string) (now : Z) :
  bounded maxAttempts a ->
  bounded maxAttempts (fst (rateLimitByUser maxAttempts windowMs a userId now)).
Proof.
  intros B. destruct userId as [u |]; [| exact B].
  destruct (String.eqb u "") eqn:E.
  - unfold rateLimitByUser. rewrite E. exact B.
  - apply String.eqb_neq in E. rewrite (rateLimitByUser_user a u now E).
    destruct (_ <? maxAttempts) eqn:L; [| exact B].
    apply Z.ltb_lt in L. cbn [fst]. intros v times. unfold set.
    destruct (String.eqb v u).
    + intros H. injection H as <-. rewrite length_app. cbn [List.length]. lia.
    + apply B.
Qed.

Lemma bounded_run (reqs : list Request) (a : Attempts) (log : list (string * Z)) :
  bounded maxAttempts a ->
  bounded maxAttempts (fst (run maxAttempts windowMs a log reqs)).
Proof.
  revert a log. induction reqs as [| [userId now] reqs IH]; intros a log B.
  - exact B.
  - cbn [run].
    pose proof (bounded_step a userId now B) as B'.
    destruct (rateLimitByUser maxAttempts windowMs a userId now) as [a' r].
    apply IH. exact B'.
Qed.

Lemma valid_at_app (now : Z) (l l' : list Z) :
  valid_at windowMs now (l ++ l')
  = (valid_at windowMs now l ++ valid_at windowMs now l')%list.
Proof. apply filter_app. Qed.

Lemma valid_at_later (now0 now : Z) (l : list Z) :
  now0 <= now ->
  valid_at windowMs now (valid_at windowMs now0 l) = valid_at windowMs now l.
Proof.
  intros H. unfold valid_at. induction l as [| t l IH]; [reflexivity |].
  cbn [filter]. destruct (now0 - t <? windowMs) eqn:E0.
  - cbn [filter]. rewrite IH. reflexivity.
  - rewrite IH. apply Z.ltb_ge in E0.
    replace (now - t <? windowMs) with false
      by (symmetry; apply Z.ltb_ge; lia).
    reflexivity.
Qed.

Lemma times_of_snoc (u v : string) (t : Z) (log : list (string * Z)) :
  times_of u (log ++ [(v, t)])
  = (times_of u log ++ (if String.eqb v u then [t] else []))%list.
Proof.
  unfold times_of. rewrite filter_app, map_app. cbn.
  destruct (String.eqb v u); reflexivity.
Qed.

Lemma in_step_later (t t' : Z) (a : Attempts) (log : list (string * Z)) :
  t <= t' -> in_step windowMs t a log -> in_step windowMs t' a log.
Proof. intros H S u now Hn. apply S. lia. Qed.

Lemma in_step_step (a : Attempts) (log : list (string * Z))
    (userId : option string) (t now0 : Z) :
  t <= now0 -> in_step windowMs t a log ->
  in_step windowMs now0
    (fst (rateLimitByUser maxAttempts windowMs a userId now0))
    (log_after log userId now0
       (snd (rateLimitByUser maxAttempts windowMs a userId now0))).
Proof.
  intros Ht S. destruct userId as [v |]; [| exact (in_step_later _ _ _ _ Ht S)].
  destruct (String.eqb v "") eqn:E.
  - unfold rateLimitByUser, log_after. rewrite E. cbn [fst snd negb].
    rewrite andb_false_r. exact (in_step_later _ _ _ _ Ht S).
  - unfold log_after. rewrite E. cbn [negb]. rewrite andb_true_r.
    apply String.eqb_neq in E. rewrite (rateLimitByUser_user a v now0 E).
    destruct (_ <? maxAttempts) eqn:L.
    + cbn [fst snd accepted]. intros u now Hn.
      rewrite times_of_snoc, valid_at_app.
      destruct (String.eqb v u) eqn:F.
      * apply String.eqb_eq in F. subst u.
        rewrite get_set_same, valid_at_app, (valid_at_later now0 now _ Hn).
        rewrite (S v now) by lia. reflexivity.
      * rewrite get_set_other
          by (intros ->; rewrite String.eqb_refl in F; discriminate).
        rewrite (S u now) by lia. cbn. rewrite app_nil_r. reflexivity.
    + cbn [fst snd].
      destruct (accepted _) eqn:A.
      * exfalso. unfold rateLimitByUser in A.
        replace (String.eqb v "") with false in A
          by (symmetry; apply String.eqb_neq; exact E).
        cbv zeta in A. rewrite Z.geb_leb in A. apply Z.ltb_ge in L.
        replace (maxAttempts <=? _) with true in A
          by (symmetry; apply Z.leb_le; exact L).
        discriminate A.
      * exact (in_step_later _ _ _ _ Ht S).
Qed.

Lemma run_cons (a : Attempts) (log : list (string * Z))
    (userId : option string) (now : Z) (reqs : list Request) :
  run maxAttempts windowMs a log ((userId, now) :: reqs)
  = run maxAttempts windowMs
      (fst (rateLimitByUser maxAttempts windowMs a userId now))
      (log_after log userId now
         (snd (rateLimitByUser maxAttempts windowMs a userId now)))
      reqs.
Proof.
  cbn [run]. destruct (rateLimitByUser maxAttempts windowMs a userId now).
  reflexivity.
Qed.

Lemma in_step_run (reqs : list Request) (a : Attempts)
    (log : list (string * Z)) (t : Z) (last : Request) :
  in_step windowMs t a log ->
  clock_from t (reqs ++ [last]) ->
  in_step windowMs (snd last)
    (fst (run maxAttempts windowMs a log reqs))
    (snd (run maxAttempts windowMs a log reqs)).
Proof.
  revert a log t. induction reqs as [| [userId now] reqs IH]; intros a log t S C.
  - destruct last as [w tl]. cbn in C. cbn [run fst snd].
    apply (in_step_later t); [lia | exact S].
  - cbn [app clock_from] in C. destruct C as (Ht & C).
    rewrite run_cons. apply (IH _ _ now); [| exact C].
    apply (in_step_step _ _ _ t); assumption.
Qed.

Lemma filter_length_lt {A : Type} (f : A -> bool) (x : A) (l : list A) :
  In x l -> f x = false -> (List.length (filter f l) < List.length l)%nat.
Proof.
  intros Hx Hf. induction l as [| y l IH]; [destruct Hx |].
  cbn [filter List.length]. destruct Hx as [-> | Hx].
  - rewrite Hf. pose proof (filter_length_le f l). lia.
  - specialize (IH Hx). destruct (f y); cbn [List.length]; lia.
Qed.

Lemma ceil_seconds_covers (x : Z) : x <= ceil_seconds x * 1000.
Proof.
  unfold ceil_seconds. pose proof (Z.mul_div_le (- x) 1000 ltac:(lia)). lia.
Qed.

Lemma ceil_seconds_positive (x : Z) : 0 < x -> 1 <= ceil_seconds x.
Proof.
  intros H. unfold ceil_seconds.
  assert ((- x) / 1000 < 0) by (apply Z.div_lt_upper_bound; lia). lia.
Qed.

Lemma bounded_no_attempts : bounded maxAttempts no_attempts.
Proof. intros u times H. discriminate H. Qed.

Lemma in_step_no_attempts (t : Z) : in_step windowMs t no_attempts [].
Proof. intros u now _. reflexivity. Qed.

(** X19: however many requests went through a limiter that started
    with an empty map, it stores at most [maxAttempts] times for a
    user. *)
Theorem stored_attempts_bounded (reqs : list Request) (u : string)
    (times : list Z) :
  fst (run maxAttempts windowMs no_attempts [] reqs) u = Some times ->
  Z.of_nat (List.length times) <= maxAttempts.
Proof. apply (bounded_run reqs no_attempts [] bounded_no_attempts). Qed.

(** X20: under a clock that does not run backwards, a limiter that
    started with an empty map lets a request of a user through exactly
    when fewer than [maxAttempts] of the user's earlier requests were
    let through less than [windowMs] before it. *)
Theorem rate_limit_decision (t0 : Z) (reqs : list Request) (u : string)
    (now : Z) :
  u <> "" ->
  clock_from t0 (reqs ++ [(Some u, now)]) ->
  accepted
    (snd (rateLimitByUser maxAttempts windowMs
            (fst (run maxAttempts windowMs no_attempts [] reqs)) (Some u) now))
  = (Z.of_nat
       (List.length
          (valid_at windowMs now
             (times_of u (snd (run maxAttempts windowMs no_attempts [] reqs)))))
     <? maxAttempts).
Proof.
  intros N C.
  pose proof (in_step_run reqs no_attempts [] t0 (Some u, now)
                (in_step_no_attempts t0) C u now (Z.le_refl _)) as S.
  cbn [snd] in S. rewrite <- S.
  rewrite (rateLimitByUser_user _ u now N).
  destruct (_ <? maxAttempts) eqn:L; [reflexivity |].
  cbn [snd]. unfold rateLimitByUser.
  replace (String.eqb u "") with false
    by (symmetry; apply String.eqb_neq; exact N).
  cbv zeta. rewrite Z.geb_leb. apply Z.ltb_ge in L.
  replace (maxAttempts <=? _) with true by (symmetry; apply Z.leb_le; exact L).
  reflexivity.
Qed.

(** X21: when a request is refused with [retryAfter] seconds, that
    number is at least 1, and the same user's request at any time at
    least that many seconds later is let through by the limiter in
    the same state. *)
Theorem retry_after_is_enough (reqs : list Request) (u : string)
    (now now' k : Z) (b : Body) :
  snd (rateLimitByUser maxAttempts windowMs
         (fst (run maxAttempts windowMs no_attempts [] reqs)) (Some u) now)
  = Respond 429 b ->
  retryAfter b = Some k ->
  now + k * 1000 <= now' ->
  1 <= k /\
  accepted
    (snd (rateLimitByUser maxAttempts windowMs
            (fst (run maxAttempts windowMs no_attempts [] reqs)) (Some u) now'))
  = true.
Proof.
  set (a := fst (run maxAttempts windowMs no_attempts [] reqs)).
  assert (B : bounded maxAttempts a)
    by apply (bounded_run reqs no_attempts [] bounded_no_attempts).
  intros R K H. unfold rateLimitByUser in R.
  destruct (String.eqb u "") eqn:E; [discriminate R |].
  cbv zeta in R.
  destruct (_ >=? maxAttempts); [| discriminate R].
  cbn [snd] in R. injection R as <-. cbn [retryAfter] in K.
  destruct (valid_at windowMs now (get_or_empty a u)) as [| first rest] eqn:V;
    [discriminate K |].
  injection K as <-.
  assert (F : In first (valid_at windowMs now (get_or_empty a u)))
    by (rewrite V; left; reflexivity).
  unfold valid_at in F. apply filter_In in F. destruct F as (Fin & Fv).
  apply Z.ltb_lt in Fv.
  pose proof (ceil_seconds_covers (first + windowMs - now)) as Cv.
  split; [apply ceil_seconds_positive; lia |].
  apply String.eqb_neq in E. rewrite (rateLimitByUser_user a u now' E).
  assert (L : Z.of_nat (List.length (valid_at windowMs now' (get_or_empty a u)))
              < maxAttempts).
  { assert (S : (List.length (valid_at windowMs now' (get_or_empty a u))
                 < List.length (get_or_empty a u))%nat).
    { apply (filter_length_lt _ first); [exact Fin |]. apply Z.ltb_ge. lia. }
    assert (M : Z.of_nat (List.length (get_or_empty a u)) <= maxAttempts).
    { unfold get_or_empty in *. destruct (a u) as [times |] eqn:G.
      - apply (B u times G).
      - destruct Fin. }
    lia. }
  apply Z.ltb_lt in L. rewrite L. reflexivity.
Qed.

End RateLimit.

(** X19 at work: after the six sample requests five times are stored. *)
Lemma stored_attempts_of_sample :
  (Z.of_nat
     (List.length
        [Samples.t0; Samples.t0 + 60000; Samples.t0 + 120000;
         Samples.t0 + 180000; Samples.t0 + 240000]) <= 5)%Z.
Proof.
  apply (stored_attempts_bounded 5 900000 Samples.six_requests Samples.student1).
  reflexivity.
Defined.

(** X20 at work: the sixth sample request, after five that were let
    through in the five minutes before it, is refused. *)
Lemma rate_limit_decision_of_sample :
  Auth.accepted
    (snd (Auth.rateLimitByUser 5 900000
            (fst (Auth.run 5 900000 Auth.no_attempts []
                    (firstn 5 Samples.six_requests)))
            (Some Samples.student1) (Samples.t0 + 300000)%Z))
  = false.
Proof.
  apply (rate_limit_decision 5 900000 Samples.t0
           (firstn 5 Samples.six_requests) Samples.student1
           (Samples.t0 + 300000)%Z).
  - discriminate.
  - cbn. unfold Samples.t0. repeat split; lia.
Defined.

(** X21 at work: the sixth sample request is refused with 600 seconds,
    and ten minutes later the request is let through. *)
Lemma retry_after_of_sample :
  (1 <= 600)%Z /\
  Auth.accepted
    (snd (Auth.rateLimitByUser 5 900000
            (fst (Auth.run 5 900000 Auth.no_attempts []
                    (firstn 5 Samples.six_requests)))
            (Some Samples.student1) (Samples.t0 + 900000)%Z))
  = true.
Proof.
  apply (retry_after_is_enough 5 900000 (firstn 5 Samples.six_requests)
           Samples.student1 (Samples.t0 + 300000)%Z (Samples.t0 + 900000)%Z 600
           {| Auth.message := "Too many attempts. Please try again later.";
              Auth.code := "RATE_LIMIT_EXCEEDED";
              Auth.required := [];
              Auth.current := None;
              Auth.retryAfter := Some 600%Z |}).
  - reflexivity.
  - reflexivity.
  - reflexivity.
Defined.
